(** * CU Marketplace bot: keyword extraction, intent detection, vendor
      search, and the conversation state machine of [bot.py].

    Text is modelled as lists of 8-bit characters and the development
    covers ASCII messages: on that range [lower] is Python's [str.lower]
    and [is_word] is the regular expression class [\w].  Characters above
    127 are treated as punctuation that [lower] leaves alone.

    Integers are unbounded, as Python's are.  SQLite holds 64-bit
    integers and sqlite3 raises [OverflowError] when it is given another
    to bind ([sql_int]).  Identifiers of users come from Telegram and fit;
    an identifier read from callback data may not.  [complete_order]
    carries the check; for the callbacks that look a row up or update it
    by such an identifier, the statements that depend on it assume
    [sql_int] of the identifier.

    The handlers are functions on a [world]: the FSM storage, the three
    tables and the messages sent.  A handler returns or raises.  The
    dispatcher offers an update to the handlers in the order of their
    registration in [bot.py] and runs the first whose filters accept
    it. *)

From Stdlib Require Import Ascii String DecimalString DecimalPos QArith Qcanon
  Qround Qabs Qpower Lqa Sorted.
From stdpp Require Import gmap strings list fin_maps numbers.

Abbreviation str := (list ascii).

(** A Python string literal. *)
Definition py (s : string) : str := list_ascii_of_string s.

(** ** Python string primitives *)

Definition is_upper (c : ascii) : bool :=
  (("A" <=? c) && (c <=? "Z"))%char.

Definition is_lower (c : ascii) : bool :=
  (("a" <=? c) && (c <=? "z"))%char.

Definition is_digit (c : ascii) : bool :=
  (("0" <=? c) && (c <=? "9"))%char.

(** The class [\w] restricted to ASCII: letters, digits and underscore. *)
Definition is_word (c : ascii) : bool :=
  is_upper c || is_lower c || is_digit c || bool_decide (c = "_"%char).

Definition lower_char (c : ascii) : ascii :=
  if is_upper c then ascii_of_nat (nat_of_ascii c + 32) else c.

(** [text.lower()] *)
Definition lower (s : str) : str := map lower_char s.

(** [s.startswith(p)] *)
Fixpoint startswith (s p : str) {struct p} : bool :=
  match p, s with
  | [], _ => true
  | _ :: _, [] => false
  | a :: p', b :: s' => bool_decide (a = b) && startswith s' p'
  end.

(** [p in s] for strings: substring containment. *)
Fixpoint str_in (p s : str) : bool :=
  startswith s p ||
  match s with
  | [] => false
  | _ :: s' => str_in p s'
  end.

(** [sep.join(l)] *)
Fixpoint join (sep : str) (l : list str) : str :=
  match l with
  | [] => []
  | [w] => w
  | w :: l' => w ++ sep ++ join sep l'
  end.

(** [re.findall(r'\b\w+\b', s)]: the maximal runs of word characters of
    [s], left to right.  [cur] is the run being read. *)
Definition flush (cur : str) : list str :=
  match cur with
  | [] => []
  | _ :: _ => [cur]
  end.

Fixpoint findall_from (cur s : str) : list str :=
  match s with
  | [] => flush cur
  | c :: s' =>
      if is_word c then findall_from (cur ++ [c]) s'
      else flush cur ++ findall_from [] s'
  end.

Definition findall_words (s : str) : list str := findall_from [] s.

(** ** Keyword extractor ([extract_keywords]) *)

Definition stopwords : list str :=
  map py
    ["the"; "a"; "an"; "and"; "or"; "but"; "in"; "on"; "at"; "to"; "for";
     "of"; "with"; "by"; "from"; "is"; "are"; "was"; "were"; "i"; "you";
     "my"; "your"; "do"; "does"; "need"; "want"; "looking"; "find"; "get";
     "have"; "has"; "can"; "could"; "would"; "should"; "will"; "am"].

Definition is_keyword (w : str) : Prop := (w ∉ stopwords) ∧ 2 < length w.

Definition extract_keywords (text : str) : list str :=
  let words := findall_words (lower text) in
  filter is_keyword words.

(** ** Intent classifier ([detect_intent]) *)

Inductive intent : Set :=
  | greeting | thanks | help | register | search | unknown.

Definition greetings : list str :=
  map py ["hi"; "hello"; "hey"; "good morning"; "good afternoon";
          "good evening"; "sup"; "what's up"; "whatsup"].

Definition thanks_phrases : list str :=
  map py ["thank"; "thanks"; "appreciate"; "grateful"].

Definition bot_questions : list str :=
  map py ["what can you do"; "how does this work"; "what is this";
          "help me"; "what do you do"].

Definition register_keywords : list str :=
  map py ["register"; "sign up"; "create account"; "add my business";
          "list my business"; "become vendor"].

Definition search_indicators : list str :=
  map py ["need"; "want"; "looking"; "find"; "where"; "who"; "buy"; "get";
          "order"; "search"].

(** [any(p in text for p in phrases)] *)
Definition any_in (phrases : list str) (text : str) : bool :=
  existsb (λ p, str_in p text) phrases.

Definition detect_intent (text : str) : intent :=
  let text_lower := lower text in
  if any_in greetings text_lower then greeting
  else if any_in thanks_phrases text_lower then thanks
  else if any_in bot_questions text_lower then help
  else if any_in register_keywords text_lower then register
  else if any_in search_indicators text_lower then search
  else if bool_decide (0 < length (extract_keywords text)) then search
  else unknown.


(** ** Vendor matcher ([search_vendors]) *)

(** A row of the [vendors] table.  The columns declared [NOT NULL] hold
    text; the others may hold [NULL]. *)
Record vendor_row : Type := {
  vendor_id : Z;
  telegram_id : Z;
  business_name : str;
  services : str;
  keywords : str;
  contact : str;
  bot_username : option str;
  description : option str;
  price_range : option str;
  total_orders : Z;
  avg_rating : Qc
}.

(** The dictionary appended to [results] for a vendor. *)
Record vendor_match : Type := {
  m_vendor_id : Z;
  m_business_name : str;
  m_services : str;
  m_description : option str;
  m_contact : str;
  m_bot_username : option str;
  m_price_range : option str;
  m_avg_rating : Qc;
  m_total_orders : Z;
  score : nat
}.

(** How an f-string renders a nullable text value. *)
Definition fmt (o : option str) : str :=
  match o with
  | Some s => s
  | None => py "None"
  end.

(** [f"{name} {services} {keywords} {desc}".lower()] *)
Definition searchable (v : vendor_row) : str :=
  lower (business_name v ++ py " " ++ services v ++ py " " ++ keywords v
         ++ py " " ++ fmt (description v)).

Definition vendor_score (query_keywords : list str) (v : vendor_row) : nat :=
  let score := length (filter (λ keyword, str_in keyword (searchable v))
                              query_keywords) in
  if any_in query_keywords (lower (services v)) then score + 2 else score.

Definition to_match (v : vendor_row) (sc : nat) : vendor_match :=
  {| m_vendor_id := vendor_id v;
     m_business_name := business_name v;
     m_services := services v;
     m_description := description v;
     m_contact := contact v;
     m_bot_username := bot_username v;
     m_price_range := price_range v;
     m_avg_rating := avg_rating v;
     m_total_orders := total_orders v;
     score := sc |}.

(** The loop over [vendors]: a match is appended when its score is positive. *)
Fixpoint scan_vendors (query_keywords : list str) (vendors : list vendor_row)
  : list vendor_match :=
  match vendors with
  | [] => []
  | v :: vendors' =>
      let sc := vendor_score query_keywords v in
      if bool_decide (0 < sc)
      then to_match v sc :: scan_vendors query_keywords vendors'
      else scan_vendors query_keywords vendors'
  end.

(** [results.sort(key=lambda x: x['score'], reverse=True)]: Python's sort
    is stable, also with [reverse=True]; it is modelled by a stable
    insertion sort on decreasing score. *)
Fixpoint insert_desc (x : vendor_match) (l : list vendor_match)
  : list vendor_match :=
  match l with
  | [] => [x]
  | y :: l' =>
      if bool_decide (score x < score y) then y :: insert_desc x l'
      else x :: y :: l'
  end.

Definition sort_desc (l : list vendor_match) : list vendor_match :=
  foldr insert_desc [] l.

Definition search_vendors (query : str) (vendors : list vendor_row)
  : list vendor_match :=
  let query_keywords := extract_keywords query in
  match query_keywords with
  | [] => []
  | _ :: _ => sort_desc (scan_vendors query_keywords vendors)
  end.

(** The vendor buttons of [vendor_list_keyboard]: one per match of
    [vendors[:10]], carrying the callback data [vendor_<id>]. *)
Definition vendor_list_buttons (vendors : list vendor_match) : list Z :=
  map m_vendor_id (take 10 vendors).

(** ** More Python string primitives used by the handlers *)

(** [c.isspace()] on ASCII. *)
Definition is_space (c : ascii) : bool :=
  bool_decide (c = " "%char) ||
  (Nat.leb 9 (nat_of_ascii c) && Nat.leb (nat_of_ascii c) 13) ||
  (Nat.leb 28 (nat_of_ascii c) && Nat.leb (nat_of_ascii c) 31).

Fixpoint lstrip (s : str) : str :=
  match s with
  | [] => []
  | c :: s' => if is_space c then lstrip s' else s
  end.

(** [s.strip()] *)
Definition strip (s : str) : str := reverse (lstrip (reverse (lstrip s))).

(** The first element of [s.split()], empty when there is none. *)
Fixpoint until_space (s : str) : str :=
  match s with
  | [] => []
  | c :: s' => if is_space c then [] else c :: until_space s'
  end.

Definition first_token (s : str) : str := until_space (lstrip s).

(** [s.replace(old, "")] for a non-empty [old]; [skip] counts the
    characters of an occurrence still to be dropped. *)
Fixpoint remove_from (old : str) (skip : nat) (s : str) : str :=
  match s with
  | [] => []
  | c :: s' =>
      match skip with
      | S k => remove_from old k s'
      | O =>
          if startswith s old then remove_from old (length old - 1) s'
          else c :: remove_from old 0 s'
      end
  end.

Definition remove_all (old s : str) : str := remove_from old 0 s.

Definition digit_val (c : ascii) : Z := Z.of_nat (nat_of_ascii c) - 48.

Definition digits_val (ds : str) : Z :=
  foldl (λ acc c, 10 * acc + digit_val c)%Z 0%Z ds.

(** The whitespace [int()] skips around a number ([Py_ISSPACE]): the
    space and the characters 9 to 13, not the separators 28 to 31 that
    [str.strip] removes. *)
Definition is_int_space (c : ascii) : bool :=
  bool_decide (c = " "%char) ||
  (Nat.leb 9 (nat_of_ascii c) && Nat.leb (nat_of_ascii c) 13).

Fixpoint int_lstrip (s : str) : str :=
  match s with
  | [] => []
  | c :: s' => if is_int_space c then int_lstrip s' else s
  end.

Definition int_strip (s : str) : str :=
  reverse (int_lstrip (reverse (int_lstrip s))).

(** The digits of a decimal literal: at least one digit, and single
    underscores allowed between two digits.  [prev] tells whether the
    character before was a digit, [acc] is the value read so far. *)
Fixpoint int_digits (prev : bool) (acc : Z) (s : str) : option Z :=
  match s with
  | [] => if prev then Some acc else None
  | c :: s' =>
      if is_digit c then int_digits true (10 * acc + digit_val c)%Z s'
      else if bool_decide (c = "_"%char) && prev then int_digits false acc s'
      else None
  end.

(** [int(s)] on ASCII text: surrounding whitespace, an optional sign,
    decimal digits; [None] is Python's [ValueError].  (CPython's limit on
    the number of digits, 4300 by default, is not reached by callback
    data, which has at most 64 bytes.) *)
Definition parse_int (s : str) : option Z :=
  match int_strip s with
  | "-"%char :: ds => Z.opp <$> int_digits false 0 ds
  | "+"%char :: ds => int_digits false 0 ds
  | ds => int_digits false 0 ds
  end.

(** An integer that SQLite can hold, and that Python can use as the
    length of a sequence: 64 bits, signed. *)
Definition sql_int (z : Z) : bool := ((- 2 ^ 63 <=? z) && (z <? 2 ^ 63))%Z.

(** [str(z)] *)
Definition show_Z (z : Z) : str := py (NilEmpty.string_of_int (Z.to_int z)).

(** ** Persistence: orders and ratings *)

Inductive order_status : Set := pending | completed | flagged.

Record order_row : Type := {
  order_id : Z;
  o_vendor_id : Z;
  buyer_id : Z;
  details : str;
  deadline : str;
  status : order_status;
  completed_at : bool
}.

Record rating_row : Type := {
  rating_id : Z;
  r_order_id : Z;
  r_vendor_id : Z;
  r_buyer_id : Z;
  stars : Z;
  review_text : option str
}.

(** ** Conversation state (aiogram's FSM context over [MemoryStorage]) *)

Inductive fsm_state : Set :=
  | VendorRegistration_business_name
  | VendorRegistration_services
  | VendorRegistration_contact
  | VendorRegistration_bot_username
  | VendorRegistration_description
  | VendorRegistration_price_range
  | OrderPlacement_vendor_id
  | OrderPlacement_order_details
  | OrderPlacement_deadline
  | RatingState_order_id
  | RatingState_stars
  | RatingState_review.

#[global] Instance fsm_state_eq_dec : EqDecision fsm_state.
Proof. solve_decision. Defined.

Inductive flow : Set := Registration | Order | Rating.

Definition flow_of (st : fsm_state) : flow :=
  match st with
  | VendorRegistration_business_name | VendorRegistration_services
  | VendorRegistration_contact | VendorRegistration_bot_username
  | VendorRegistration_description | VendorRegistration_price_range =>
      Registration
  | OrderPlacement_vendor_id | OrderPlacement_order_details
  | OrderPlacement_deadline => Order
  | RatingState_order_id | RatingState_stars | RatingState_review => Rating
  end.

(** The values the handlers put in the FSM data dictionary. *)
Inductive pyval : Type :=
  | PStr (s : str)
  | PInt (z : Z)
  | PNone.

Record session : Type := {
  fsm : option fsm_state;
  data : gmap string pyval
}.

Definition idle : session := {| fsm := None; data := ∅ |}.

(** What the bot sends: one constructor per message template. *)
Inductive reply : Type :=
  | RWelcome
  | RAlreadyRegistered (name : str)
  | RAskBusinessName
  | RAskServices (name : option str)
  | RAskContact
  | RAskBotUsername
  | RAskDescription (bot : option str)
  | RAskPriceRange
  | RRegistered (name : str)
  | RRegistrationFailed
  | RGreeting
  | RThanks
  | RHelp
  | RNoVendors
  | RVendorInfo (vid : Z)
  | RVendorList (found : nat) (buttons : list Z)
  | RUnknown
  | RSearchAgain
  | RBotLink (vid : Z)
  | RBotNotAvailable
  | RAskOrderDetails
  | RAskDeadline
  | RNewOrder (oid : Z)
  | ROrderPlaced (oid : Z)
  | RFollowup (oid : Z)
  | RAskStars
  | RAskReview (stars : Z)
  | RReviewThanks
  | RFlagged
  | RNotVendor
  | RNoOrders
  | ROrderHistory (oids : list Z)
  | RNoRatings
  | RMyRating
  | RContact (vid : Z)
  | RVendorNotFound
  | RCallbackAnswered.

Inductive exn : Set :=
  | AttributeError | TypeError | KeyError | ValueError | IntegrityError
  | OverflowError.

(** A call of the classifier or of the matcher, recorded for specification
    only: no handler reads the record. *)
Inductive call : Type :=
  | CallDetectIntent (t : str)
  | CallSearchVendors (t : str).

(** The store of sessions, the three tables, the messages sent so far
    (with their recipient), the follow-up tasks created, and the calls
    made to the classifier and the matcher. *)
Record world : Type := {
  storage : gmap Z session;
  vendors : list vendor_row;
  orders : list order_row;
  ratings : list rating_row;
  outbox : list (Z * reply);
  tasks : list (Z * Z);
  calls : list call
}.

(** A handler either returns or raises; an exception leaves the world
    as it was when it was raised. *)
Inductive result : Type :=
  | Ok (w : world)
  | Raise (e : exn) (w : world).

Definition world_of (r : result) : world :=
  match r with Ok w | Raise _ w => w end.

(** A message as a handler and its filters see it: the sender, the text
    (absent from a photo and the like), the caption (of a photo and the
    like), and [me], the username of the bot the message is bound to
    ([(await bot.me()).username]). *)
Record message : Type := {
  from_user : Z;
  text : option str;
  caption : option str;
  me : str
}.
Record callback : Type := { cb_user : Z; cb_data : str }.

Inductive update : Type :=
  | Message (m : message)
  | CallbackQuery (c : callback).

(** ** FSM context operations *)

Definition get_session (uid : Z) (w : world) : session :=
  default idle (storage w !! uid).

Definition put_session (uid : Z) (s : session) (w : world) : world :=
  {| storage := <[uid := s]> (storage w); vendors := vendors w;
     orders := orders w; ratings := ratings w; outbox := outbox w;
     tasks := tasks w; calls := calls w |}.

(** [await state.get_state()] *)
Definition get_state (uid : Z) (w : world) : option fsm_state :=
  fsm (get_session uid w).

(** [await state.get_data()] *)
Definition get_data (uid : Z) (w : world) : gmap string pyval :=
  data (get_session uid w).

(** [await state.set_state(st)] *)
Definition set_state (uid : Z) (st : fsm_state) (w : world) : world :=
  put_session uid {| fsm := Some st; data := get_data uid w |} w.

(** [await state.update_data(k=v)] *)
Definition update_data (uid : Z) (k : string) (v : pyval) (w : world) : world :=
  put_session uid {| fsm := get_state uid w; data := <[k := v]> (get_data uid w) |} w.

(** [await state.clear()]: no state and no data. *)
Definition clear (uid : Z) (w : world) : world := put_session uid idle w.

(** [await message.answer(r)], [callback.message.edit_text(r)] and
    [bot.send_message(uid, r)] all append to the messages sent. *)
Definition send (uid : Z) (r : reply) (w : world) : world :=
  {| storage := storage w; vendors := vendors w; orders := orders w;
     ratings := ratings w; outbox := outbox w ++ [(uid, r)];
     tasks := tasks w; calls := calls w |}.

Definition record_call (c : call) (w : world) : world :=
  {| storage := storage w; vendors := vendors w; orders := orders w;
     ratings := ratings w; outbox := outbox w; tasks := tasks w;
     calls := calls w ++ [c] |}.

Definition create_task (t : Z * Z) (w : world) : world :=
  {| storage := storage w; vendors := vendors w; orders := orders w;
     ratings := ratings w; outbox := outbox w; tasks := tasks w ++ [t];
     calls := calls w |}.

Definition set_vendors (vs : list vendor_row) (w : world) : world :=
  {| storage := storage w; vendors := vs; orders := orders w;
     ratings := ratings w; outbox := outbox w; tasks := tasks w;
     calls := calls w |}.

Definition set_orders (os : list order_row) (w : world) : world :=
  {| storage := storage w; vendors := vendors w; orders := os;
     ratings := ratings w; outbox := outbox w; tasks := tasks w;
     calls := calls w |}.

Definition set_ratings (rs : list rating_row) (w : world) : world :=
  {| storage := storage w; vendors := vendors w; orders := orders w;
     ratings := rs; outbox := outbox w; tasks := tasks w;
     calls := calls w |}.

(** The text of a message as a Python value. *)
Definition text_val (m : message) : pyval :=
  match text m with
  | Some t => PStr t
  | None => PNone
  end.

(** ** Repository *)

(** A Python value bound to a TEXT column: [None] is [NULL], an integer is
    stored as its decimal text. *)
Definition sql_text (v : pyval) : option str :=
  match v with
  | PStr s => Some s
  | PInt z => Some (show_Z z)
  | PNone => None
  end.

(** [SELECT * FROM vendors WHERE telegram_id = ?], first row. *)
Definition get_vendor_by_telegram_id (tid : Z) (w : world) : option vendor_row :=
  list_find (λ v, telegram_id v = tid) (vendors w) ≫= λ p, Some p.2.

(** [SELECT ... FROM vendors WHERE vendor_id = ?], first row. *)
Definition get_vendor (vid : Z) (w : world) : option vendor_row :=
  list_find (λ v, vendor_id v = vid) (vendors w) ≫= λ p, Some p.2.

(** [SELECT ... FROM orders WHERE order_id = ?], first row. *)
Definition get_order (oid : Z) (w : world) : option order_row :=
  list_find (λ o, order_id o = oid) (orders w) ≫= λ p, Some p.2.

(** The identifier an AUTOINCREMENT key gives the next row of a table
    from which nothing is ever deleted. *)
Definition next_id {A} (table : list A) : Z := Z.of_nat (length table) + 1.

(** [INSERT INTO vendors (...)]: fails on a [NULL] in a [NOT NULL] column
    and on a second row for the same [telegram_id]. *)
Definition insert_vendor (tid : Z) (name services keywords contact : option str)
    (bot desc price : option str) (w : world) : option world :=
  match name, services, keywords, contact with
  | Some n, Some s, Some k, Some c =>
      if bool_decide (tid ∈ map telegram_id (vendors w)) then None
      else Some (set_vendors
        (vendors w ++
         [{| vendor_id := next_id (vendors w); telegram_id := tid;
             business_name := n; services := s; keywords := k; contact := c;
             bot_username := bot; description := desc; price_range := price;
             total_orders := 0; avg_rating := 0 |}]) w)
  | _, _, _, _ => None
  end.

(** [INSERT INTO orders (vendor_id, buyer_id, details, deadline)], for
    integers that SQLite can hold (the caller has checked); the status
    takes its default ['pending']. *)
Definition insert_order (vid buyer : Z) (det dl : option str) (w : world)
  : option (Z * world) :=
  match det, dl with
  | Some d, Some l =>
      let oid := next_id (orders w) in
      Some (oid, set_orders
        (orders w ++
         [{| order_id := oid; o_vendor_id := vid; buyer_id := buyer;
             details := d; deadline := l; status := pending;
             completed_at := false |}]) w)
  | _, _ => None
  end.

(** [INSERT INTO ratings (...)]: [order_id] is UNIQUE and [stars] is
    checked to lie between 1 and 5. *)
Definition insert_rating (oid vid buyer st : Z) (review : option str) (w : world)
  : option world :=
  if bool_decide (oid ∈ map r_order_id (ratings w)) then None
  else if bool_decide (1 ≤ st ≤ 5)%Z then
    Some (set_ratings
      (ratings w ++
       [{| rating_id := next_id (ratings w); r_order_id := oid;
           r_vendor_id := vid; r_buyer_id := buyer; stars := st;
           review_text := review |}]) w)
  else None.

(** [UPDATE orders SET status = ? WHERE order_id = ?] *)
Definition update_order_status (oid : Z) (s : order_status) (stamp : bool)
    (w : world) : world :=
  set_orders
    (map (λ o, if bool_decide (order_id o = oid)
               then {| order_id := order_id o; o_vendor_id := o_vendor_id o;
                       buyer_id := buyer_id o; details := details o;
                       deadline := deadline o; status := s;
                       completed_at := stamp || completed_at o |}
               else o) (orders w)) w.

(** The stars of the ratings recorded for a vendor. *)
Definition vendor_stars (vid : Z) (rs : list rating_row) : list Z :=
  map stars (filter (λ r, r_vendor_id r = vid) rs).

Definition sum_Z (l : list Z) : Z := foldr Z.add 0%Z l.

(** The integer nearest to a rational, the even one of two that are
    equally near. *)
Definition round_half_even (q : Q) : Z :=
  let f := Qfloor q in
  match (q - inject_Z f ?= 1 # 2)%Q with
  | Lt => f
  | Gt => (f + 1)%Z
  | Eq => if Z.even f then f else (f + 1)%Z
  end.

(** The exponent [e] with [2 ^ e <= q < 2 ^ (e + 1)], for a positive [q]. *)
Definition binade (q : Q) : Z :=
  let e := (Z.log2 (Qnum q) - Z.log2 (Z.pos (Qden q)))%Z in
  if Qle_bool ((2 # 1) ^ e) q then e else (e - 1)%Z.

(** A rational as the double that holds it: the nearest number with a
    significand of 53 bits, ties to even (IEEE 754 binary64; the bounds of
    the exponent are not reached by an average of stars).  A double is
    modelled by its exact value. *)
Definition to_double (q : Q) : Qc :=
  match Qnum q with
  | 0%Z => 0%Qc
  | Z.pos _ =>
      let ulp := ((2 # 1) ^ (binade q - 52))%Q in
      Q2Qc (inject_Z (round_half_even (q / ulp)) * ulp)
  | Z.neg _ =>
      let ulp := ((2 # 1) ^ (binade (- q) - 52))%Q in
      Q2Qc (- (inject_Z (round_half_even (- q / ulp)) * ulp))
  end.

(** [SELECT AVG(stars), COUNT( * ) FROM ratings WHERE vendor_id = ?]:
    the average is [NULL] when there is no row; otherwise SQLite divides
    the integer sum of the stars by their number, in double precision. *)
Definition select_avg_count (vid : Z) (rs : list rating_row) : option Qc * Z :=
  let ss := vendor_stars vid rs in
  match ss with
  | [] => (None, 0%Z)
  | _ :: _ =>
      (Some (to_double (inject_Z (sum_Z ss) / inject_Z (Z.of_nat (length ss)))),
       Z.of_nat (length ss))
  end.

Definition update_vendor_rating (vid : Z) (w : world) : world :=
  let result := select_avg_count vid (ratings w) in
  let avg := match result.1 with
             | Some a => if bool_decide (a = 0%Qc) then 0%Qc else a
             | None => 0%Qc
             end in
  let total := result.2 in
  set_vendors
    (map (λ v, if bool_decide (vendor_id v = vid)
               then {| vendor_id := vendor_id v; telegram_id := telegram_id v;
                       business_name := business_name v; services := services v;
                       keywords := keywords v; contact := contact v;
                       bot_username := bot_username v;
                       description := description v;
                       price_range := price_range v;
                       total_orders := total; avg_rating := avg |}
               else v) (vendors w)) w.

(** ** Message handlers, in the order they are registered *)

Definition cmd_start (m : message) (w : world) : result :=
  Ok (send (from_user m) RWelcome w).

Definition cmd_register (m : message) (w : world) : result :=
  let uid := from_user m in
  match get_vendor_by_telegram_id uid w with
  | Some existing_vendor =>
      Ok (send uid (RAlreadyRegistered (business_name existing_vendor)) w)
  | None =>
      let w := send uid RAskBusinessName w in
      Ok (set_state uid VendorRegistration_business_name w)
  end.

Definition process_business_name (m : message) (w : world) : result :=
  let uid := from_user m in
  let w := update_data uid "business_name" (text_val m) w in
  let w := send uid (RAskServices (text m)) w in
  Ok (set_state uid VendorRegistration_services w).

Definition process_services (m : message) (w : world) : result :=
  let uid := from_user m in
  match text m with
  | None => Raise AttributeError w
  | Some services =>
      let keywords := join (py " ") (extract_keywords services) in
      let w := update_data uid "services" (PStr services) w in
      let w := update_data uid "keywords" (PStr keywords) w in
      let w := send uid RAskContact w in
      Ok (set_state uid VendorRegistration_contact w)
  end.

Definition process_contact (m : message) (w : world) : result :=
  let uid := from_user m in
  let w := update_data uid "contact" (text_val m) w in
  let w := send uid RAskBotUsername w in
  Ok (set_state uid VendorRegistration_bot_username w).

Definition no_bot_answers : list str :=
  map py ["no"; "skip"; "none"; "nope"; "na"; "n/a"; "don't have"; "dont have"].

Definition process_bot_username (m : message) (w : world) : result :=
  let uid := from_user m in
  match text m with
  | None => Raise AttributeError w
  | Some t =>
      let bot_username :=
        if bool_decide (lower t ∈ no_bot_answers) then None
        else
          let b := strip t in
          if startswith b (py "@") then Some b else Some (py "@" ++ b) in
      let w := update_data uid "bot_username"
                 (from_option PStr PNone bot_username) w in
      let w := send uid (RAskDescription bot_username) w in
      Ok (set_state uid VendorRegistration_description w)
  end.

Definition process_description (m : message) (w : world) : result :=
  let uid := from_user m in
  match text m with
  | None => Raise TypeError w
  | Some t =>
      let w := update_data uid "description" (PStr (take 200 t)) w in
      let w := send uid RAskPriceRange w in
      Ok (set_state uid VendorRegistration_price_range w)
  end.

(** The body of the [try] block of [process_price_range]: [None] stands
    for any exception raised in it ([KeyError] on a missing field, or the
    failure of the INSERT). *)
Definition try_register (m : message) (w : world) : option world :=
  let uid := from_user m in
  let data := get_data uid w in
  name ← data !! "business_name";
  services ← data !! "services";
  keywords ← data !! "keywords";
  contact ← data !! "contact";
  desc ← data !! "description";
  w ← insert_vendor uid (sql_text name) (sql_text services) (sql_text keywords)
        (sql_text contact) (data !! "bot_username" ≫= sql_text) (sql_text desc)
        (text m) w;
  Some (send uid (RRegistered (default [] (sql_text name))) w).

Definition process_price_range (m : message) (w : world) : result :=
  let uid := from_user m in
  let w :=
    match try_register m w with
    | Some w' => w'
    | None => send uid RRegistrationFailed w
    end in
  Ok (clear uid w).

Definition show_vendor_info (uid : Z) (vendor : vendor_match) (w : world) : world :=
  send uid (RVendorInfo (m_vendor_id vendor)) w.

Definition handle_conversation (m : message) (t : str) (w : world) : result :=
  let uid := from_user m in
  match get_state uid w with
  | Some _ => Ok w
  | None =>
      let w := record_call (CallDetectIntent t) w in
      match detect_intent t with
      | greeting => Ok (send uid RGreeting w)
      | thanks => Ok (send uid RThanks w)
      | help => Ok (send uid RHelp w)
      | register => cmd_register m w
      | search =>
          let w := record_call (CallSearchVendors t) w in
          let results := search_vendors t (vendors w) in
          match results with
          | [] => Ok (send uid RNoVendors w)
          | [vendor] => Ok (show_vendor_info uid vendor w)
          | _ => Ok (send uid (RVendorList (length results)
                                 (vendor_list_buttons results)) w)
          end
      | unknown => Ok (send uid RUnknown w)
      end
  end.

Definition process_order_details (m : message) (w : world) : result :=
  let uid := from_user m in
  let w := update_data uid "order_details" (text_val m) w in
  let w := send uid RAskDeadline w in
  Ok (set_state uid OrderPlacement_deadline w).

(** [vendor_id] is only ever stored as an integer by [start_order]; any
    other kind of value is reported as a [TypeError].  The INSERT binds
    its values before it runs: a [vendor_id] that SQLite cannot hold
    raises [OverflowError], whatever the other values are. *)
Definition complete_order (m : message) (w : world) : result :=
  let uid := from_user m in
  let data := get_data uid w in
  match data !! "vendor_id" with
  | None => Raise KeyError w
  | Some (PStr _) | Some PNone => Raise TypeError w
  | Some (PInt vendor_id) =>
      match data !! "order_details" with
      | None => Raise KeyError w
      | Some det =>
          if negb (sql_int vendor_id) then Raise OverflowError w else
          match insert_order vendor_id uid (sql_text det) (text m) w with
          | None => Raise IntegrityError w
          | Some (order_id, w) =>
              let w :=
                match get_vendor vendor_id w with
                | Some vendor =>
                    let w := send (telegram_id vendor) (RNewOrder order_id) w in
                    let w := send uid (ROrderPlaced order_id) w in
                    create_task (order_id, uid) w
                | None => w
                end in
              Ok (clear uid w)
          end
      end
  end.

(** [order_id] and [stars] are only ever stored as integers, by
    [order_completed] and [process_rating_stars]. *)
Definition process_review (m : message) (w : world) : result :=
  let uid := from_user m in
  let data := get_data uid w in
  match data !! "order_id", data !! "stars" with
  | Some (PInt order_id), Some (PInt stars) =>
      let review :=
        if bool_decide (text m = Some (py "/skip")) then None else text m in
      match get_order order_id w with
      | None => Raise TypeError w
      | Some o =>
          let vendor_id := o_vendor_id o in
          match insert_rating order_id vendor_id uid stars review w with
          | None => Raise IntegrityError w
          | Some w =>
              let w := update_vendor_rating vendor_id w in
              let w := send uid RReviewThanks w in
              Ok (clear uid w)
          end
      end
  | None, _ | Some _, None => Raise KeyError w
  | Some _, Some _ => Raise TypeError w
  end.

(** The rows are read newest first ([ORDER BY created_at DESC]); the
    model takes the order of insertion for the order of the timestamps,
    which have a resolution of one second. *)
Definition cmd_order_history (m : message) (w : world) : result :=
  let uid := from_user m in
  match get_vendor_by_telegram_id uid w with
  | None => Ok (send uid RNotVendor w)
  | Some vendor =>
      match filter (λ o, o_vendor_id o = vendor_id vendor) (orders w) with
      | [] => Ok (send uid RNoOrders w)
      | os => Ok (send uid (ROrderHistory (map order_id (take 15 (reverse os)))) w)
      end
  end.

Definition cmd_my_rating (m : message) (w : world) : result :=
  let uid := from_user m in
  match get_vendor_by_telegram_id uid w with
  | None => Ok (send uid RNotVendor w)
  | Some vendor =>
      match vendor_stars (vendor_id vendor) (ratings w) with
      | [] => Ok (send uid RNoRatings w)
      | _ => Ok (send uid RMyRating w)
      end
  end.

(** ** Callback-query handlers, in the order they are registered *)

(** [int(callback.data.replace(prefix, ""))] *)
Definition callback_id (prefix : string) (c : callback) : option Z :=
  parse_int (remove_all (py prefix) (cb_data c)).

Definition show_vendor_details (c : callback) (w : world) : result :=
  let uid := cb_user c in
  match callback_id "vendor_" c with
  | None => Raise ValueError w
  | Some vendor_id =>
      let w :=
        match get_vendor vendor_id w with
        | Some _ => send uid (RVendorInfo vendor_id) w
        | None => w
        end in
      Ok (send uid RCallbackAnswered w)
  end.

Definition search_again (c : callback) (w : world) : result :=
  let uid := cb_user c in
  Ok (send uid RCallbackAnswered (send uid RSearchAgain w)).

Definition redirect_to_vendor_bot (c : callback) (w : world) : result :=
  let uid := cb_user c in
  match callback_id "botorder_" c with
  | None => Raise ValueError w
  | Some vendor_id =>
      let w :=
        match get_vendor vendor_id w ≫= bot_username with
        | Some (_ :: _) => send uid (RBotLink vendor_id) w
        | _ => send uid RBotNotAvailable w
        end in
      Ok (send uid RCallbackAnswered w)
  end.

Definition start_order (c : callback) (w : world) : result :=
  let uid := cb_user c in
  match callback_id "order_" c with
  | None => Raise ValueError w
  | Some vendor_id =>
      let w := update_data uid "vendor_id" (PInt vendor_id) w in
      let w := send uid RAskOrderDetails w in
      let w := set_state uid OrderPlacement_order_details w in
      Ok (send uid RCallbackAnswered w)
  end.

Definition order_completed (c : callback) (w : world) : result :=
  let uid := cb_user c in
  match callback_id "complete_" c with
  | None => Raise ValueError w
  | Some order_id =>
      let w := update_order_status order_id completed true w in
      let w := update_data uid "order_id" (PInt order_id) w in
      let w := send uid RAskStars w in
      let w := set_state uid RatingState_stars w in
      Ok (send uid RCallbackAnswered w)
  end.

(** The stars are stored before the text of the answer is built:
    ['⭐' * stars] raises [OverflowError] for a number that is not a valid
    length, and the handler stops there, with the stars in the session.
    (The model sets no further bound on the length of the answer.) *)
Definition process_rating_stars (c : callback) (w : world) : result :=
  let uid := cb_user c in
  match callback_id "rate_" c with
  | None => Raise ValueError w
  | Some stars =>
      let w := update_data uid "stars" (PInt stars) w in
      if negb (sql_int stars) then Raise OverflowError w else
      let w := send uid (RAskReview stars) w in
      let w := set_state uid RatingState_review w in
      Ok (send uid RCallbackAnswered w)
  end.

Definition order_incomplete (c : callback) (w : world) : result :=
  let uid := cb_user c in
  match callback_id "incomplete_" c with
  | None => Raise ValueError w
  | Some order_id =>
      let w := update_order_status order_id flagged false w in
      let w := send uid RFlagged w in
      Ok (send uid RCallbackAnswered w)
  end.

Definition show_contact (c : callback) (w : world) : result :=
  let uid := cb_user c in
  match callback_id "contact_" c with
  | None => Raise ValueError w
  | Some vendor_id =>
      match get_vendor vendor_id w with
      | Some _ => Ok (send uid (RContact vendor_id) w)
      | None => Ok (send uid RVendorNotFound w)
      end
  end.

(** [schedule_order_followup], when its day of sleep is over. *)
Definition schedule_order_followup (t : Z * Z) (w : world) : world :=
  match get_order t.1 w with
  | Some o =>
      match status o with
      | pending => send t.2 (RFollowup t.1) w
      | _ => w
      end
  | None => w
  end.

(** ** The dispatcher *)

(** [message.text or message.caption] *)
Definition text_or_caption (m : message) : option str :=
  match text m with
  | Some (c :: t) => Some (c :: t)
  | _ => caption m
  end.

(** [s.partition("@")]: what precedes the first [@] and what follows it. *)
Fixpoint partition_at (s : str) : str * str :=
  match s with
  | [] => ([], [])
  | c :: s' =>
      if bool_decide (c = "@"%char) then ([], s')
      else (c :: (partition_at s').1, (partition_at s').2)
  end.

(** How aiogram reads a command: the first word of the text, which must
    begin with the prefix [/], is split at its first [@] into the command
    and the mention. *)
Definition parse_command (t : str) : option (str * str) :=
  match first_token t with
  | prefix :: full_command =>
      if bool_decide (prefix = "/"%char) then Some (partition_at full_command)
      else None
  | [] => None
  end.

(** The filter [Command(name)]: the text, or the caption when there is no
    text, begins with the command [/name], alone or followed by a mention
    of this bot ([/name@username], letters in either case). *)
Definition is_command (name : string) (m : message) : bool :=
  match text_or_caption m ≫= parse_command with
  | Some (command, mention) =>
      bool_decide (command = py name)
      && match mention, me m with
         | _ :: _, _ :: _ => bool_decide (lower mention = lower (me m))
         | _, _ => true
         end
  | None => false
  end.

(** The filter [F.text & ~F.text.startswith('/')]: a non-empty text that
    does not start with a slash. *)
Definition free_text (m : message) : option str :=
  match text m with
  | Some (c :: t) => if startswith (c :: t) (py "/") then None else Some (c :: t)
  | _ => None
  end.

Inductive handler : Set :=
  | h_cmd_start | h_cmd_register
  | h_process_business_name | h_process_services | h_process_contact
  | h_process_bot_username | h_process_description | h_process_price_range
  | h_handle_conversation
  | h_process_order_details | h_complete_order | h_process_review
  | h_cmd_order_history | h_cmd_my_rating
  | h_show_vendor_details | h_search_again | h_redirect_to_vendor_bot
  | h_start_order | h_order_completed | h_process_rating_stars
  | h_order_incomplete | h_show_contact.

(** aiogram offers an update to the handlers of its kind in the order of
    their registration and runs the first whose filters accept it. *)
Definition route_message (m : message) (w : world) : option handler :=
  let st := get_state (from_user m) w in
  if is_command "start" m then Some h_cmd_start
  else if is_command "register" m then Some h_cmd_register
  else if bool_decide (st = Some VendorRegistration_business_name)
    then Some h_process_business_name
  else if bool_decide (st = Some VendorRegistration_services)
    then Some h_process_services
  else if bool_decide (st = Some VendorRegistration_contact)
    then Some h_process_contact
  else if bool_decide (st = Some VendorRegistration_bot_username)
    then Some h_process_bot_username
  else if bool_decide (st = Some VendorRegistration_description)
    then Some h_process_description
  else if bool_decide (st = Some VendorRegistration_price_range)
    then Some h_process_price_range
  else if bool_decide (is_Some (free_text m)) then Some h_handle_conversation
  else if bool_decide (st = Some OrderPlacement_order_details)
    then Some h_process_order_details
  else if bool_decide (st = Some OrderPlacement_deadline)
    then Some h_complete_order
  else if bool_decide (st = Some RatingState_review) then Some h_process_review
  else if is_command "orderhistory" m then Some h_cmd_order_history
  else if is_command "myrating" m then Some h_cmd_my_rating
  else None.

Definition route_callback (c : callback) (w : world) : option handler :=
  let st := get_state (cb_user c) w in
  let d := cb_data c in
  if startswith d (py "vendor_") then Some h_show_vendor_details
  else if bool_decide (d = py "search_again") then Some h_search_again
  else if startswith d (py "botorder_") then Some h_redirect_to_vendor_bot
  else if startswith d (py "order_") then Some h_start_order
  else if startswith d (py "complete_") then Some h_order_completed
  else if bool_decide (st = Some RatingState_stars) && startswith d (py "rate_")
    then Some h_process_rating_stars
  else if startswith d (py "incomplete_") then Some h_order_incomplete
  else if startswith d (py "contact_") then Some h_show_contact
  else None.

Definition run_message (h : handler) (m : message) (w : world) : result :=
  match h with
  | h_cmd_start => cmd_start m w
  | h_cmd_register => cmd_register m w
  | h_process_business_name => process_business_name m w
  | h_process_services => process_services m w
  | h_process_contact => process_contact m w
  | h_process_bot_username => process_bot_username m w
  | h_process_description => process_description m w
  | h_process_price_range => process_price_range m w
  | h_handle_conversation => handle_conversation m (default [] (text m)) w
  | h_process_order_details => process_order_details m w
  | h_complete_order => complete_order m w
  | h_process_review => process_review m w
  | h_cmd_order_history => cmd_order_history m w
  | h_cmd_my_rating => cmd_my_rating m w
  | _ => Ok w
  end.

Definition run_callback (h : handler) (c : callback) (w : world) : result :=
  match h with
  | h_show_vendor_details => show_vendor_details c w
  | h_search_again => search_again c w
  | h_redirect_to_vendor_bot => redirect_to_vendor_bot c w
  | h_start_order => start_order c w
  | h_order_completed => order_completed c w
  | h_process_rating_stars => process_rating_stars c w
  | h_order_incomplete => order_incomplete c w
  | h_show_contact => show_contact c w
  | _ => Ok w
  end.

(** [dp.feed_update]: an update no handler accepts is dropped. *)
Definition feed_update (u : update) (w : world) : result :=
  match u with
  | Message m =>
      match route_message m w with
      | Some h => run_message h m w
      | None => Ok w
      end
  | CallbackQuery c =>
      match route_callback c w with
      | Some h => run_callback h c w
      | None => Ok w
      end
  end.

(** The world after a sequence of updates; an exception is logged by the
    dispatcher and the next update is served. *)
Definition feed_updates (us : list update) (w : world) : world :=
  foldl (λ w u, world_of (feed_update u w)) w us.

Definition empty_world : world :=
  {| storage := ∅; vendors := []; orders := []; ratings := [];
     outbox := []; tasks := []; calls := [] |}.

Definition user_of (u : update) : Z :=
  match u with
  | Message m => from_user m
  | CallbackQuery c => cb_user c
  end.

(** ** The classifier as the spec words it *)

(** The rules in priority order, each with the intent it yields. *)
Definition intent_rules (text : str) : list (bool * intent) :=
  [ (any_in greetings (lower text), greeting);
    (any_in thanks_phrases (lower text), thanks);
    (any_in bot_questions (lower text), help);
    (any_in register_keywords (lower text), register);
    (any_in search_indicators (lower text), search);
    (bool_decide (extract_keywords text ≠ []), search) ].

(** First matching rule wins. *)
Fixpoint first_match (rules : list (bool * intent)) (otherwise : intent) : intent :=
  match rules with
  | [] => otherwise
  | (true, i) :: _ => i
  | (false, _) :: rules' => first_match rules' otherwise
  end.

(** The phrase lists of the five phrase rules. *)
Definition phrase_lists : list (list str) :=
  [greetings; thanks_phrases; bot_questions; register_keywords;
   search_indicators].

(** ** The matcher as the spec words it *)

(** The texts of a vendor that are searched: the business name, the
    services, the stored keywords and the description, which reads
    [None] for a vendor that has none. *)
Definition corpus (v : vendor_row) : list str :=
  [business_name v; services v; keywords v;
   match description v with Some d => d | None => py "None" end].

(** A keyword counts when it occurs in one of those texts, lowercased. *)
Definition occurs (k : str) (v : vendor_row) : bool :=
  existsb (λ field, str_in k (lower field)) (corpus v).

(** The score of a vendor: the number of query keywords that occur, plus
    2, once, when some keyword occurs in the services. *)
Definition ranked_score (ks : list str) (v : vendor_row) : nat :=
  length (filter (λ k, occurs k v = true) ks)
  + (if existsb (λ k, str_in k (lower (services v))) ks then 2 else 0).

(** The entry of the result for a vendor and its score. *)
Definition ranked (ks : list str) (v : vendor_row) : vendor_match :=
  {| m_vendor_id := vendor_id v; m_business_name := business_name v;
     m_services := services v; m_description := description v;
     m_contact := contact v; m_bot_username := bot_username v;
     m_price_range := price_range v; m_avg_rating := avg_rating v;
     m_total_orders := total_orders v; score := ranked_score ks v |}.

(** ** The extractor as the spec words it *)



(** Three vendors for the ranking scenario: the second and the third have
    the same score for the query "I need rice". *)
Definition rice_bowl : vendor_row :=
  {| vendor_id := 2; telegram_id := 12; business_name := py "Rice Bowl";
     services := py "laundry"; keywords := py "laundry"; contact := py "x";
     bot_username := None; description := None; price_range := None;
     total_orders := 0; avg_rating := 0 |}.

Definition rice_hut : vendor_row :=
  {| vendor_id := 3; telegram_id := 13; business_name := py "Rice Hut";
     services := py "ironing"; keywords := py "ironing"; contact := py "y";
     bot_username := None; description := Some (py "not food");
     price_range := None; total_orders := 0; avg_rating := 0 |}.

Definition barber : vendor_row :=
  {| vendor_id := 4; telegram_id := 14; business_name := py "Sharp Cuts";
     services := py "haircut"; keywords := py "haircut"; contact := py "z";
     bot_username := None; description := None; price_range := None;
     total_orders := 0; avg_rating := 0 |}.

(** The handler of each step that reads a text message. *)
Definition step_handler (st : fsm_state) : option handler :=
  match st with
  | VendorRegistration_business_name => Some h_process_business_name
  | VendorRegistration_services => Some h_process_services
  | VendorRegistration_contact => Some h_process_contact
  | VendorRegistration_bot_username => Some h_process_bot_username
  | VendorRegistration_description => Some h_process_description
  | VendorRegistration_price_range => Some h_process_price_range
  | OrderPlacement_order_details => Some h_process_order_details
  | OrderPlacement_deadline => Some h_complete_order
  | RatingState_review => Some h_process_review
  | OrderPlacement_vendor_id | RatingState_order_id | RatingState_stars => None
  end.

(** The arithmetic mean of a list of stars: their sum divided by their
    number. *)
Definition mean (l : list Z) : Q :=
  inject_Z (sum_Z l) / inject_Z (Z.of_nat (length l)).

(** ** Scenarios *)

(** The bot of the scenarios. *)
Definition cxt_bot : str := py "cxt_bot".

Definition text_msg (uid : Z) (t : string) : update :=
  Message {| from_user := uid; text := Some (py t); caption := None;
             me := cxt_bot |}.

(** A message without text and without caption, such as a photo. *)
Definition photo (uid : Z) : update :=
  Message {| from_user := uid; text := None; caption := None;
             me := cxt_bot |}.

Definition press (uid : Z) (d : string) : update :=
  CallbackQuery {| cb_user := uid; cb_data := py d |}.

(** User 7 registers the vendor of the spec's second scenario. *)
Definition registration : list update :=
  [text_msg 7 "/register"; text_msg 7 "Jollof Spot";
   text_msg 7 "jollof rice, fried rice"; text_msg 7 "08012345678";
   text_msg 7 "skip"; text_msg 7 "Best rice in town"; text_msg 7 "N500-N2000"].

Definition registered_world : world := feed_updates registration empty_world.

Definition jollof_spot : vendor_row :=
  {| vendor_id := 1; telegram_id := 7; business_name := py "Jollof Spot";
     services := py "jollof rice, fried rice";
     keywords := py "jollof rice fried rice"; contact := py "08012345678";
     bot_username := None; description := Some (py "Best rice in town");
     price_range := Some (py "N500-N2000"); total_orders := 0;
     avg_rating := 0 |}.

(** User 8 places order 1 with that vendor. *)
Definition ordering : list update :=
  [press 8 "order_1"; text_msg 8 "/2 plates"; text_msg 8 "/tomorrow"].

Definition ordered_world : world := feed_updates ordering registered_world.

(** User 8 marks order 1 as received and is asked for stars. *)
Definition awaiting_stars_world : world :=
  feed_updates [press 8 "complete_1"] ordered_world.

(** Users 8, 9 and 10 each place an order with the vendor, mark it as
    received and rate it, with the stars given. *)
Definition order_and_rate (uid : Z) (complete rate : string) : list update :=
  [press uid "order_1"; text_msg uid "/2 plates"; text_msg uid "/tomorrow";
   press uid complete; press uid rate].

Definition three_ratings (s1 s2 s3 : string) : list update :=
  order_and_rate 8 "complete_1" s1 ++ [text_msg 8 "/skip"]
  ++ order_and_rate 9 "complete_2" s2 ++ [text_msg 9 "/skip"]
  ++ order_and_rate 10 "complete_3" s3.

(** The world in which user 10 is about to send the third review. *)
Definition before_third_review (s1 s2 s3 : string) : world :=
  feed_updates (three_ratings s1 s2 s3) registered_world.

(** The review of user 10: the skip command. *)
Definition third_review : message :=
  {| from_user := 10; text := Some (py "/skip"); caption := None;
     me := cxt_bot |}.

(** The vendors' aggregates once the three ratings are in. *)
Definition aggregates_after (s1 s2 s3 : string) : list (Z * Q) :=
  map (λ v, (total_orders v, this (avg_rating v)))
      (vendors (world_of (process_review third_review
                            (before_third_review s1 s2 s3)))).

(** User 7 has given a business name and is asked for the services. *)
Definition registering_world : world :=
  feed_updates [text_msg 7 "/register"; text_msg 7 "Jollof Spot"] empty_world.

Definition need_food : message :=
  {| from_user := 7; text := Some (py "I need food"); caption := None;
     me := cxt_bot |}.

Definition five_stars : message :=
  {| from_user := 8; text := Some (py "five stars"); caption := None;
     me := cxt_bot |}.

Definition press_incomplete : callback :=
  {| cb_user := 8; cb_data := py "incomplete_1" |}.

(** The step that follows each Registration step. *)
Definition next_step (st : fsm_state) : option fsm_state :=
  match st with
  | VendorRegistration_business_name => Some VendorRegistration_services
  | VendorRegistration_services => Some VendorRegistration_contact
  | VendorRegistration_contact => Some VendorRegistration_bot_username
  | VendorRegistration_bot_username => Some VendorRegistration_description
  | VendorRegistration_description => Some VendorRegistration_price_range
  | _ => None
  end.

(** ** Views of the tables used in the statements *)

(** What registration writes of a vendor: the row without its aggregate
    rating and its count of orders. *)
Definition vendor_profile (v : vendor_row)
  : Z * Z * str * str * str * str * option str * option str * option str :=
  (vendor_id v, telegram_id v, business_name v, services v, keywords v,
   contact v, bot_username v, description v, price_range v).

(** What placing an order writes: the row without its status. *)
Definition order_facts (o : order_row) : Z * Z * Z * str * str :=
  (order_id o, o_vendor_id o, buyer_id o, details o, deadline o).

(** The keys of the three tables: identifiers count the rows from 1, no
    two vendors share an owner, no order is rated twice, and stars lie
    between 1 and 5. *)
Definition well_keyed (w : world) : Prop :=
  (∀ i v, vendors w !! i = Some v → vendor_id v = Z.of_nat i + 1)%Z
  ∧ NoDup (map telegram_id (vendors w))
  ∧ (∀ i o, orders w !! i = Some o → order_id o = Z.of_nat i + 1)%Z
  ∧ (∀ i r, ratings w !! i = Some r → rating_id r = Z.of_nat i + 1)%Z
  ∧ NoDup (map r_order_id (ratings w))
  ∧ Forall (λ r, 1 ≤ stars r ≤ 5)%Z (ratings w).

(** A text that is not read as [/start] or [/register], with or without
    a mention: neither of the two commands that are registered before the
    step handlers, whatever the name of the bot. *)
Definition plain (t : str) : Prop :=
  match parse_command t with
  | Some (command, _) => command ≠ py "start" ∧ command ≠ py "register"
  | None => True
  end.

(** The message of user [uid] to the bot [bot] with the text [t] and no
    caption. *)
Definition said (bot : str) (uid : Z) (t : str) : message :=
  {| from_user := uid; text := Some t; caption := None; me := bot |}.

Definition says (bot : str) (uid : Z) (t : str) : update :=
  Message (said bot uid t).

(** The six answers of a registration, after the command. *)
Definition registration_of (bot : str) (uid : Z)
    (name serv cont bot_name desc price : str) : list update :=
  [says bot uid (py "/register"); says bot uid name; says bot uid serv;
   says bot uid cont; says bot uid bot_name; says bot uid desc;
   says bot uid price].

(** A text that starts with a slash and is neither [/start] nor
    [/register]: the only texts that get past [handle_conversation]. *)
Definition slashed (t : str) : Prop :=
  startswith t (py "/") = true ∧ plain t.

(** The order of the ordering scenario, as it is stored. *)
Definition first_order : order_row :=
  {| order_id := 1; o_vendor_id := 1; buyer_id := 8;
     details := py "/2 plates"; deadline := py "/tomorrow";
     status := pending; completed_at := false |}.

(** ** Keyboards: the callback data of the buttons the bot renders *)

Definition vendor_action_keyboard (vendor_id : Z) (has_bot : bool)
  : list str :=
  [ (if has_bot then py "botorder_" else py "order_") ++ show_Z vendor_id;
    py "contact_" ++ show_Z vendor_id;
    py "search_again" ].

(** [rate_i] for [i] in [range(1, 6)]. *)
Definition rating_keyboard : list str :=
  map (λ i, py "rate_" ++ show_Z i) [1; 2; 3; 4; 5]%Z.

Definition vendor_list_keyboard (vendors : list vendor_match) : list str :=
  map (λ vendor, py "vendor_" ++ show_Z (m_vendor_id vendor))
      (take 10 vendors)
  ++ [py "search_again"].

(** The keyboard of the follow-up prompt. *)
Definition followup_keyboard (order_id : Z) : list str :=
  [py "complete_" ++ show_Z order_id; py "incomplete_" ++ show_Z order_id].

(** User [uid] presses the button with data [d]. *)
Definition pressed (uid : Z) (d : str) : callback :=
  {| cb_user := uid; cb_data := d |}.

(** The id a callback handler reads from the data of the pressed button
    ([int(callback.data.replace(prefix, ""))]); [search_again] reads
    none. *)
Definition handler_arg (h : handler) (c : callback) : option Z :=
  match h with
  | h_show_vendor_details => callback_id "vendor_" c
  | h_redirect_to_vendor_bot => callback_id "botorder_" c
  | h_start_order => callback_id "order_" c
  | h_order_completed => callback_id "complete_" c
  | h_process_rating_stars => callback_id "rate_" c
  | h_order_incomplete => callback_id "incomplete_" c
  | h_show_contact => callback_id "contact_" c
  | _ => None
  end.

(** Where a pressed button lands: the handler aiogram selects and the id
    that handler reads. *)
Definition dispatch (c : callback) (w : world)
  : option (handler * option Z) :=
  h ← route_callback c w; Some (h, handler_arg h c).

(** The value of a decimal numeral read after the digits read so far. *)
Fixpoint uint_val (d : Decimal.uint) (acc : Z) : Z :=
  match d with
  | Decimal.Nil => acc
  | Decimal.D0 d => uint_val d (10 * acc)
  | Decimal.D1 d => uint_val d (10 * acc + 1)
  | Decimal.D2 d => uint_val d (10 * acc + 2)
  | Decimal.D3 d => uint_val d (10 * acc + 3)
  | Decimal.D4 d => uint_val d (10 * acc + 4)
  | Decimal.D5 d => uint_val d (10 * acc + 5)
  | Decimal.D6 d => uint_val d (10 * acc + 6)
  | Decimal.D7 d => uint_val d (10 * acc + 7)
  | Decimal.D8 d => uint_val d (10 * acc + 8)
  | Decimal.D9 d => uint_val d (10 * acc + 9)
  end%Z.

(* ================================================================== *)
(** * Properties *)



(** ** Characters and lowercasing *)

Lemma lower_char_idemp (c : ascii) : lower_char (lower_char c) = lower_char c.
Proof. by destruct c as [[] [] [] [] [] [] [] []]. Qed.

Lemma lower_idemp (s : str) : lower (lower s) = lower s.
Proof.
  unfold lower. induction s as [|c s IH]; simpl; [done|].
  by rewrite lower_char_idemp, IH.
Qed.

Lemma lower_app (a b : str) : lower (a ++ b) = lower a ++ lower b.
Proof. apply map_app. Qed.

(** A string is lowercase when [lower] leaves it alone. *)
Lemma lower_fixed_Forall (s : str) :
  lower s = s ↔ Forall (λ c, lower_char c = c) s.
Proof.
  unfold lower. induction s as [|c s IH]; simpl.
  - split; [constructor | done].
  - split.
    + intros [= Hc Hs]. constructor; [done | by apply IH].
    + intros [Hc Hs]%Forall_cons_1. apply IH in Hs. by rewrite Hc, Hs.
Qed.

(** ** Substring containment *)

Lemma startswith_spec (s p : str) :
  startswith s p = true ↔ ∃ b, s = p ++ b.
Proof.
  revert s. induction p as [|a p IH]; intros s; simpl.
  - split; [by exists s | done].
  - destruct s as [|c s]; simpl.
    + split; [done | by intros [b ?]].
    + rewrite andb_true_iff, bool_decide_eq_true, IH. split.
      * intros [-> [b ->]]. by exists b.
      * intros [b [= <- ->]]. eauto.
Qed.

Lemma str_in_spec (p s : str) :
  str_in p s = true ↔ ∃ a b, s = a ++ p ++ b.
Proof.
  induction s as [|c s IH]; simpl.
  - rewrite orb_false_r, startswith_spec. split.
    + intros [b ->]. by exists [], b.
    + intros (a & b & H). symmetry in H.
      apply app_eq_nil in H as [-> H]. apply app_eq_nil in H as [-> ->].
      by exists [].
  - rewrite orb_true_iff, startswith_spec, IH. split.
    + intros [[b ->] | (a & b & ->)]; [by exists [], b | by exists (c :: a), b].
    + intros (a & b & H). destruct a as [|c' a]; simpl in H.
      * left. by exists b.
      * right. injection H as <- ->. by exists a, b.
Qed.

Lemma str_in_app (p s x y : str) :
  str_in p s = true → str_in p (x ++ s ++ y) = true.
Proof.
  rewrite !str_in_spec. intros (a & b & ->).
  exists (x ++ a), (b ++ y). by rewrite <- !app_assoc.
Qed.

(** ** The tokenizer *)

Lemma findall_from_run (w cur s : str) :
  forallb is_word w = true →
  findall_from cur (w ++ s) = findall_from (cur ++ w) s.
Proof.
  revert cur. induction w as [|c w IH]; intros cur Hw; simpl in *.
  - by rewrite app_nil_r.
  - apply andb_true_iff in Hw as [Hc Hw]. rewrite Hc, IH by done.
    by rewrite <- app_assoc.
Qed.

Lemma findall_from_word_chars (cur s : str) :
  forallb is_word cur = true →
  Forall (λ w, w ≠ [] ∧ forallb is_word w = true) (findall_from cur s).
Proof.
  revert cur. induction s as [|c s IH]; intros cur Hcur; simpl.
  - destruct cur; simpl; repeat constructor; done.
  - destruct (is_word c) eqn:Hc.
    + apply IH. rewrite forallb_app. simpl. by rewrite Hcur, Hc.
    + apply Forall_app. split; [|by apply IH].
      destruct cur; simpl; repeat constructor; done.
Qed.

Lemma findall_from_chars (P : ascii → Prop) (cur s : str) :
  Forall P cur → Forall P s → Forall (Forall P) (findall_from cur s).
Proof.
  revert cur. induction s as [|c s IH]; intros cur Hcur Hs; simpl.
  - destruct cur; simpl; [constructor | constructor; [done | constructor]].
  - apply Forall_cons_1 in Hs as [Hc Hs]. destruct (is_word c).
    + apply IH; [|done]. apply Forall_app. split; [done | by constructor].
    + apply Forall_app. split; [|by apply IH].
      destruct cur; simpl; [constructor | constructor; [done | constructor]].
Qed.

Lemma findall_from_substring (cur s w : str) :
  w ∈ findall_from cur s → ∃ a b, cur ++ s = a ++ w ++ b.
Proof.
  revert cur. induction s as [|c s IH]; intros cur; simpl.
  - destruct cur; simpl; [by intros ?%elem_of_nil|].
    intros ->%list_elem_of_singleton. exists [], []. by rewrite !app_nil_r.
  - destruct (is_word c).
    + intros (a & b & H)%IH. exists a, b. by rewrite <- H, <- app_assoc.
    + rewrite elem_of_app. intros [Hw | Hw].
      * destruct cur; simpl in Hw; [by apply elem_of_nil in Hw|].
        apply list_elem_of_singleton in Hw as ->. by exists [], (c :: s).
      * apply IH in Hw as (a & b & H). simpl in H.
        exists (cur ++ c :: a), b. rewrite H. by rewrite <- app_assoc.
Qed.

Lemma findall_words_substring (s w : str) :
  w ∈ findall_words s → str_in w s = true.
Proof. intros H%findall_from_substring. by apply str_in_spec. Qed.

Lemma findall_from_space (cur s : str) :
  findall_from cur (py " " ++ s) = flush cur ++ findall_words s.
Proof. done. Qed.

Lemma findall_words_join (ws : list str) :
  Forall (λ w, w ≠ [] ∧ forallb is_word w = true) ws →
  findall_words (join (py " ") ws) = ws.
Proof.
  induction 1 as [|w ws [Hne Hw] Hws IH]; [done|].
  destruct ws as [|w' ws].
  - pose proof (findall_from_run w [] [] Hw) as H.
    rewrite app_nil_r in H. simpl. unfold findall_words. rewrite H. simpl.
    destruct w; [by destruct Hne | done].
  - change (join (py " ") (w :: w' :: ws))
      with (w ++ py " " ++ join (py " ") (w' :: ws)).
    unfold findall_words at 1. rewrite findall_from_run by done.
    rewrite findall_from_space, IH. simpl.
    destruct w; [by destruct Hne | done].
Qed.

Lemma lower_join (ws : list str) :
  Forall (λ w, lower w = w) ws → lower (join (py " ") ws) = join (py " ") ws.
Proof.
  induction 1 as [|w ws Hw Hws IH]; [done|].
  destruct ws as [|w' ws]; [done|].
  change (join (py " ") (w :: w' :: ws))
    with (w ++ py " " ++ join (py " ") (w' :: ws)).
  by rewrite !lower_app, Hw, IH.
Qed.

Lemma filter_all {A} (P : A → Prop) `{!∀ x, Decision (P x)} (l : list A) :
  Forall P l → filter P l = l.
Proof.
  induction 1 as [|x l Hx Hl IH]; [done|].
  by rewrite filter_cons_True, IH.
Qed.

(** ** Keyword extractor *)

Lemma findall_words_lower_tokens (text : str) :
  Forall (λ w, (w ≠ [] ∧ forallb is_word w = true) ∧ lower w = w)
         (findall_words (lower text)).
Proof.
  apply Forall_and.
  - by apply findall_from_word_chars.
  - assert (Forall (Forall (λ c, lower_char c = c))
                   (findall_words (lower text))) as H.
    { apply findall_from_chars; [constructor|].
      apply lower_fixed_Forall, lower_idemp. }
    eapply Forall_impl; [|exact H].
    intros w Hw. by apply lower_fixed_Forall.
Qed.

Lemma extract_keywords_sub (text : str) (w : str) :
  w ∈ extract_keywords text → is_keyword w ∧ w ∈ findall_words (lower text).
Proof. unfold extract_keywords. by intros ?%list_elem_of_filter. Qed.

Lemma extract_keywords_substring (text w : str) :
  w ∈ extract_keywords text → str_in w (lower text) = true.
Proof. intros [_ H]%extract_keywords_sub. by apply findall_words_substring. Qed.






(** C9: re-extracting from the keywords joined by single spaces gives the
    keywords back. *)
Theorem extract_keywords_join_idemp (text : str) :
  extract_keywords (join (py " ") (extract_keywords text))
    = extract_keywords text.
Proof.
  pose proof (findall_words_lower_tokens text) as H.
  rewrite list.Forall_forall in H.
  assert (Forall (λ w, w ≠ [] ∧ forallb is_word w = true)
                 (extract_keywords text)) as Hword.
  { apply list.Forall_forall. intros w [Hk Hin]%extract_keywords_sub.
    by apply H. }
  assert (Forall (λ w, lower w = w) (extract_keywords text)) as Hlow.
  { apply list.Forall_forall. intros w [Hk Hin]%extract_keywords_sub.
    by apply H. }
  assert (Forall is_keyword (extract_keywords text)) as Hkw.
  { apply list.Forall_forall. by intros w [Hk Hin]%extract_keywords_sub. }
  unfold extract_keywords at 1.
  rewrite lower_join, findall_words_join by done.
  by apply filter_all.
Qed.

(** ** Intent classifier *)

(** C1: the classifier returns the intent of the first rule that matches,
    in the order Greeting, Thanks, Help, Register, explicit Search,
    fallback Search; a greeting phrase wins over a search indicator; and
    Unknown is returned exactly when no phrase list matches and there is
    no keyword. *)
Theorem detect_intent_first_match (text : str) :
  detect_intent text = first_match (intent_rules text) unknown
  ∧ (any_in greetings (lower text) = true →
     any_in search_indicators (lower text) = true →
     detect_intent text = greeting)
  ∧ (detect_intent text = unknown ↔
     Forall (λ phrases, any_in phrases (lower text) = false) phrase_lists
     ∧ extract_keywords text = []).
Proof.
  unfold detect_intent, intent_rules, phrase_lists.
  assert (bool_decide (0 < length (extract_keywords text))
          = bool_decide (extract_keywords text ≠ [])) as ->.
  { by destruct (extract_keywords text). }
  case_bool_decide as Hk;
    destruct (any_in greetings (lower text)) eqn:Hg,
      (any_in thanks_phrases (lower text)) eqn:Ht,
      (any_in bot_questions (lower text)) eqn:Hb,
      (any_in register_keywords (lower text)) eqn:Hr,
      (any_in search_indicators (lower text)) eqn:Hs; simpl;
    (split; [done|]); (split; [try done|]);
    (split;
     [ first [done | intros _; split; [by repeat constructor | done]]
     | intros [H Hnil];
       first [congruence
             | repeat (apply Forall_cons_1 in H as [? H]); congruence] ]).
Qed.

(** ** Vendor matcher *)

Lemma any_in_true (phrases : list str) (text p : str) :
  p ∈ phrases → str_in p text = true → any_in phrases text = true.
Proof.
  intros Hp Hin. apply existsb_exists. exists p.
  by rewrite <- list_elem_of_In.
Qed.

Lemma scan_vendors_filter (ks : list str) (vs : list vendor_row) :
  scan_vendors ks vs
  = map (λ v, to_match v (vendor_score ks v))
        (filter (λ v, 0 < vendor_score ks v) vs).
Proof.
  induction vs as [|v vs IH]; [done|]. simpl.
  rewrite filter_cons. case_bool_decide; case_decide; try done.
  simpl. by rewrite IH.
Qed.

Lemma scan_vendors_nil (vs : list vendor_row) : scan_vendors [] vs = [].
Proof. induction vs as [|v vs IH]; [done | by simpl]. Qed.

Lemma insert_desc_perm (x : vendor_match) (l : list vendor_match) :
  insert_desc x l ≡ₚ x :: l.
Proof.
  induction l as [|y l IH]; [done|]. simpl. case_bool_decide; [|done].
  rewrite IH. apply Permutation_swap.
Qed.

Lemma sort_desc_perm (l : list vendor_match) : sort_desc l ≡ₚ l.
Proof.
  induction l as [|x l IH]; [done|]. simpl.
  by rewrite insert_desc_perm, IH.
Qed.

Lemma insert_desc_sorted (x : vendor_match) (l : list vendor_match) :
  StronglySorted (λ a b, score b ≤ score a) l →
  StronglySorted (λ a b, score b ≤ score a) (insert_desc x l).
Proof.
  induction 1 as [|y l Hl IH Hy]; simpl.
  - repeat constructor.
  - case_bool_decide as Hlt.
    + constructor; [done|]. rewrite insert_desc_perm.
      constructor; [lia | done].
    + constructor; [by constructor|].
      constructor; [lia|]. eapply Forall_impl; [|exact Hy].
      intros z Hz. simpl in Hz. lia.
Qed.

Lemma sort_desc_sorted (l : list vendor_match) :
  StronglySorted (λ a b, score b ≤ score a) (sort_desc l).
Proof.
  induction l as [|x l IH]; simpl; [constructor | by apply insert_desc_sorted].
Qed.

Lemma insert_desc_stable (n : nat) (x : vendor_match) (l : list vendor_match) :
  filter (λ m, score m = n) (insert_desc x l)
  = filter (λ m, score m = n) (x :: l).
Proof.
  induction l as [|y l IH]; [done|]. simpl. case_bool_decide as Hlt; [|done].
  rewrite (filter_cons _ y), IH, !filter_cons.
  repeat case_decide; try done. lia.
Qed.

Lemma sort_desc_stable (n : nat) (l : list vendor_match) :
  filter (λ m, score m = n) (sort_desc l) = filter (λ m, score m = n) l.
Proof.
  induction l as [|x l IH]; [done|]. simpl.
  by rewrite insert_desc_stable, !filter_cons, IH.
Qed.

Lemma startswith_sep (k a b : str) (c : ascii) :
  c ∉ k → startswith (a ++ c :: b) k = startswith a k.
Proof.
  revert k. induction a as [|x a IH]; intros k Hc; destruct k as [|k0 k];
    simpl; try done.
  - rewrite bool_decide_eq_false_2; [done|]. intros ->. apply Hc. by left.
  - rewrite IH; [done|]. intros H. apply Hc. by right.
Qed.

(** A text without the character [c] occurs in two texts joined by [c]
    exactly when it occurs in one of them. *)
Lemma str_in_sep (k a b : str) (c : ascii) :
  c ∉ k → k ≠ [] → str_in k (a ++ c :: b) = str_in k a || str_in k b.
Proof.
  intros Hc Hk. induction a as [|x a IH].
  - destruct k as [|k0 k]; [done|]. simpl.
    rewrite bool_decide_eq_false_2; [done|]. intros ->. apply Hc. by left.
  - change ((x :: a) ++ c :: b) with (x :: (a ++ c :: b)).
    cbn [str_in]. rewrite IH.
    change (x :: (a ++ c :: b)) with ((x :: a) ++ c :: b).
    rewrite startswith_sep by done. by rewrite orb_assoc.
Qed.

Lemma keyword_no_space (query k : str) :
  k ∈ extract_keywords query → (" "%char ∉ k) ∧ k ≠ [].
Proof.
  intros [_ Hin]%extract_keywords_sub.
  pose proof (findall_words_lower_tokens query) as H.
  rewrite list.Forall_forall in H. destruct (H k Hin) as [[Hne Hw] _].
  split; [|done]. intros Hsp.
  rewrite forallb_forall in Hw. apply list_elem_of_In, Hw in Hsp. done.
Qed.

Lemma searchable_occurs (v : vendor_row) (k : str) :
  " "%char ∉ k → k ≠ [] → str_in k (searchable v) = occurs k v.
Proof.
  intros Hsp Hk. unfold searchable, occurs, corpus, fmt.
  rewrite !lower_app. change (lower (py " ")) with [" "%char].
  repeat match goal with
         | |- context [[" "%char] ++ ?x] =>
             change ([" "%char] ++ x) with (" "%char :: x)
         end.
  rewrite !(str_in_sep k _ _ " "%char Hsp Hk). cbn [existsb].
  by rewrite orb_false_r.
Qed.

Lemma vendor_score_ranked (query : str) (v : vendor_row) :
  vendor_score (extract_keywords query) v
  = ranked_score (extract_keywords query) v.
Proof.
  unfold vendor_score, ranked_score, any_in.
  assert (filter (λ keyword, str_in keyword (searchable v))
                 (extract_keywords query)
          = filter (λ k, occurs k v = true) (extract_keywords query)) as ->.
  { assert (Forall (λ k, (" "%char ∉ k) ∧ k ≠ []) (extract_keywords query))
      as Hall.
    { apply list.Forall_forall. intros k. apply keyword_no_space. }
    induction Hall as [|k ks [Hsp Hk] _ IH]; [done|].
    rewrite !filter_cons, IH, (searchable_occurs v k Hsp Hk).
    destruct (occurs k v); by repeat case_decide. }
  destruct (existsb _ _); lia.
Qed.

Lemma scan_vendors_ranked (query : str) (vs : list vendor_row) :
  scan_vendors (extract_keywords query) vs
  = map (ranked (extract_keywords query))
        (filter (λ v, 0 < ranked_score (extract_keywords query) v) vs).
Proof.
  induction vs as [|v vs IH]; [done|]. simpl.
  rewrite filter_cons, IH, vendor_score_ranked.
  case_bool_decide; case_decide; try done.
Qed.

(** C2: no keyword, no result and no scan.  Otherwise the result holds
    exactly the vendors of positive score, each with its own columns and
    its score: the number of query keywords that occur in its business
    name, its services, its stored keywords or its description,
    lowercased (the four are joined by spaces, which no keyword holds),
    plus 2, once, when some keyword occurs in the services.  The result
    is ordered by decreasing score, vendors of equal score in scan order;
    all of them are returned, while the keyboard shows at most ten. *)
Theorem search_vendors_ranked (query : str) (vs : list vendor_row) :
  let ks := extract_keywords query in
  let found := map (ranked ks) (filter (λ v, 0 < ranked_score ks v) vs) in
  let r := search_vendors query vs in
  (ks = [] → r = [] ∧ ∀ vs', search_vendors query vs' = [])
  ∧ r ≡ₚ found
  ∧ StronglySorted (λ a b, score b ≤ score a) r
  ∧ (∀ n, filter (λ m, score m = n) r = filter (λ m, score m = n) found)
  ∧ length (vendor_list_buttons r) = length r `min` 10.
Proof.
  intros ks found r. subst found r. unfold search_vendors. fold ks.
  subst ks. rewrite <- scan_vendors_ranked.
  split_and!.
  - by intros ->.
  - destruct (extract_keywords query);
      [by rewrite scan_vendors_nil | apply sort_desc_perm].
  - destruct (extract_keywords query);
      [constructor | apply sort_desc_sorted].
  - intros n. destruct (extract_keywords query);
      [by rewrite scan_vendors_nil | apply sort_desc_stable].
  - unfold vendor_list_buttons. rewrite length_map, length_take. lia.
Qed.

(** C10: a vendor is found, with a score of at least 3, by any query that
    shares a keyword with the vendor's own services text. *)
Theorem registered_vendor_found (vs : list vendor_row) (v : vendor_row)
    (query k : str) :
  v ∈ vs →
  k ∈ extract_keywords query →
  k ∈ extract_keywords (services v) →
  ∃ m, m ∈ search_vendors query vs
       ∧ m_vendor_id m = vendor_id v
       ∧ m_services m = services v
       ∧ 3 ≤ score m.
Proof.
  intros Hv Hq Hs.
  assert (str_in k (lower (services v)) = true) as Hserv
    by by apply extract_keywords_substring.
  assert (str_in k (searchable v) = true) as Hcorpus.
  { unfold searchable. rewrite !lower_app.
    rewrite (app_assoc (lower (business_name v))). by apply str_in_app. }
  assert (3 ≤ vendor_score (extract_keywords query) v) as Hscore.
  { unfold vendor_score. rewrite (any_in_true _ _ k) by done.
    assert (k ∈ filter (λ k, str_in k (searchable v)) (extract_keywords query))
      as Hk by (apply list_elem_of_filter; by rewrite Hcorpus).
    destruct (filter _ (extract_keywords query)); [by apply elem_of_nil in Hk|].
    simpl. lia. }
  exists (to_match v (vendor_score (extract_keywords query) v)).
  split; [|done]. unfold search_vendors.
  destruct (extract_keywords query) as [|k' ks] eqn:Hks;
    [by apply elem_of_nil in Hq|].
  rewrite sort_desc_perm, scan_vendors_filter.
  apply list_elem_of_fmap. exists v. split; [done|].
  apply list_elem_of_filter. split; [lia | done].
Qed.

(** ** Worked scenarios *)

Example registered_world_vendors : vendors registered_world = [jollof_spot].
Proof. by vm_compute. Qed.

Example ordered_world_orders :
  map (λ o, (order_id o, o_vendor_id o, buyer_id o, status o))
      (orders ordered_world) = [(1, 1, 8, pending)%Z]
  ∧ get_state 8 ordered_world = None.
Proof. by vm_compute. Qed.

(** ** The FSM context and the repository *)

Lemma get_state_set_state (uid : Z) (st : fsm_state) (w : world) :
  get_state uid (set_state uid st w) = Some st.
Proof.
  unfold get_state, get_session, set_state, put_session. simpl.
  by rewrite lookup_insert_eq.
Qed.

Lemma get_state_update_data (uid : Z) (k : string) (v : pyval) (w : world) :
  get_state uid (update_data uid k v w) = get_state uid w.
Proof.
  unfold get_state, get_session, update_data, put_session. simpl.
  by rewrite lookup_insert_eq.
Qed.

Lemma get_data_set_state (uid : Z) (st : fsm_state) (w : world) :
  get_data uid (set_state uid st w) = get_data uid w.
Proof.
  unfold get_data, get_session, set_state, put_session. simpl.
  by rewrite lookup_insert_eq.
Qed.

Lemma get_data_update_data (uid : Z) (k : string) (v : pyval) (w : world) :
  get_data uid (update_data uid k v w) = <[k := v]> (get_data uid w).
Proof.
  unfold get_data, get_session, update_data, put_session. simpl.
  by rewrite lookup_insert_eq.
Qed.

Lemma get_state_clear (uid : Z) (w : world) : get_state uid (clear uid w) = None.
Proof.
  unfold get_state, get_session, clear, put_session. simpl.
  by rewrite lookup_insert_eq.
Qed.

Lemma get_data_clear (uid : Z) (w : world) : get_data uid (clear uid w) = ∅.
Proof.
  unfold get_data, get_session, clear, put_session. simpl.
  by rewrite lookup_insert_eq.
Qed.

Lemma insert_vendor_inv tid name serv kw cont bot desc price (w w' : world) :
  insert_vendor tid name serv kw cont bot desc price w = Some w' →
  ∃ n s k c,
    name = Some n ∧ serv = Some s ∧ kw = Some k ∧ cont = Some c
    ∧ (tid ∉ map telegram_id (vendors w))
    ∧ w' = set_vendors
        (vendors w ++
         [{| vendor_id := next_id (vendors w); telegram_id := tid;
             business_name := n; services := s; keywords := k; contact := c;
             bot_username := bot; description := desc; price_range := price;
             total_orders := 0; avg_rating := 0 |}]) w.
Proof.
  unfold insert_vendor. destruct name, serv, kw, cont; try done.
  case_bool_decide; [done|]. intros [= <-]. by eexists _, _, _, _.
Qed.

Lemma insert_order_inv vid buyer det dl (w w' : world) (oid : Z) :
  insert_order vid buyer det dl w = Some (oid, w') →
  ∃ d l,
    det = Some d ∧ dl = Some l ∧ oid = next_id (orders w)
    ∧ w' = set_orders
        (orders w ++
         [{| order_id := oid; o_vendor_id := vid; buyer_id := buyer;
             details := d; deadline := l; status := pending;
             completed_at := false |}]) w.
Proof.
  unfold insert_order. destruct det, dl; try done.
  intros [= <- <-]. by eexists _, _.
Qed.

Lemma insert_rating_inv oid vid buyer st review (w w' : world) :
  insert_rating oid vid buyer st review w = Some w' →
  (oid ∉ map r_order_id (ratings w)) ∧ (1 ≤ st ≤ 5)%Z
  ∧ w' = set_ratings
      (ratings w ++
       [{| rating_id := next_id (ratings w); r_order_id := oid;
           r_vendor_id := vid; r_buyer_id := buyer; stars := st;
           review_text := review |}]) w.
Proof.
  unfold insert_rating. case_bool_decide; [done|].
  case_bool_decide; [|done]. by intros [= <-].
Qed.

Lemma try_register_inv (m : message) (w w' : world) :
  try_register m w = Some w' →
  ∃ row r,
    telegram_id row = from_user m
    ∧ w' = send (from_user m) r (set_vendors (vendors w ++ [row]) w).
Proof.
  unfold try_register. intros H.
  repeat (match type of H with
          | (?o ≫= _) = Some _ =>
              let x := fresh "x" in
              destruct o as [x|] eqn:?; simpl in H; [|done]
          end).
  match goal with
  | Hi : insert_vendor _ _ _ _ _ _ _ _ _ = Some _ |- _ =>
      apply insert_vendor_inv in Hi as (n & s & k & c & _ & _ & _ & _ & _ & ->)
  end.
  injection H as <-. eexists _, _. split; last done. done.
Qed.

(** ** Routing while a flow is active *)

(** The handlers that run the classifier or the matcher leave a record in
    [calls]; every other step of every handler keeps [calls]. *)
Lemma in_flow_no_call (m : message) (w : world) (st : fsm_state) :
  get_state (from_user m) w = Some st →
  calls (world_of (feed_update (Message m) w)) = calls w.
Proof.
  intros Hst. unfold feed_update.
  destruct (route_message m w) as [h|]; [|done].
  destruct h; simpl; try done.
  - unfold cmd_register. by case_match.
  - unfold process_services. by case_match.
  - unfold process_bot_username. by case_match.
  - unfold process_description. by case_match.
  - unfold process_price_range.
    destruct (try_register m w) as [w'|] eqn:Hreg; [|done].
    by apply try_register_inv in Hreg as (row & r & _ & ->).
  - unfold handle_conversation. by rewrite Hst.
  - unfold complete_order. repeat case_match; try done; subst.
    all: match goal with
         | H : insert_order _ _ _ _ _ = Some _ |- _ =>
             apply insert_order_inv in H as (d & l & _ & _ & _ & ->)
         end; done.
  - unfold process_review. repeat case_match; try done; subst.
    all: match goal with
         | H : insert_rating _ _ _ _ _ _ = Some _ |- _ =>
             apply insert_rating_inv in H as (_ & _ & ->)
         end; done.
  - unfold cmd_order_history. by repeat case_match.
  - unfold cmd_my_rating. by repeat case_match.
Qed.

Lemma route_registration_step (m : message) (w : world) (st : fsm_state) :
  get_state (from_user m) w = Some st →
  flow_of st = Registration →
  is_command "start" m = false →
  is_command "register" m = false →
  route_message m w = step_handler st.
Proof.
  intros Hst Hflow Hc1 Hc2. unfold route_message.
  rewrite Hst, Hc1, Hc2. by destruct st.
Qed.

Lemma route_order_prefix (c : callback) (w : world) :
  startswith (cb_data c) (py "order_") = true →
  route_callback c w = Some h_start_order.
Proof.
  intros [b Hb]%startswith_spec. unfold route_callback. by rewrite Hb.
Qed.

Lemma route_complete_prefix (c : callback) (w : world) :
  startswith (cb_data c) (py "complete_") = true →
  route_callback c w = Some h_order_completed.
Proof.
  intros [b Hb]%startswith_spec. unfold route_callback. by rewrite Hb.
Qed.

Lemma route_incomplete_prefix (c : callback) (w : world) :
  startswith (cb_data c) (py "incomplete_") = true →
  route_callback c w = Some h_order_incomplete.
Proof.
  intros [b Hb]%startswith_spec. unfold route_callback. rewrite Hb. simpl.
  by rewrite andb_false_r.
Qed.

(** C4, as the code has it: while a flow is active, a free-text message is
    never passed to the classifier or to the matcher; in a Registration
    step it is handled by that step.  But a flow can be entered while
    another is active: the buttons [order_] and [complete_] (the latter
    for an identifier that SQLite can hold) and the command [/register]
    (for a user who owns no vendor) move the user to the first step of
    their flow whatever the state was.  The step of the earlier flow is
    lost, the state holding one step only, and the fields collected so
    far stay in the session beside the new one. *)
Theorem flow_precedence (w : world) :
  (∀ m t st,
     get_state (from_user m) w = Some st → free_text m = Some t →
     calls (world_of (feed_update (Message m) w)) = calls w)
  ∧ (∀ m t st,
       get_state (from_user m) w = Some st → free_text m = Some t →
       flow_of st = Registration →
       is_command "start" m = false → is_command "register" m = false →
       ∃ h, step_handler st = Some h
            ∧ feed_update (Message m) w = run_message h m w)
  ∧ (∀ c vid,
       startswith (cb_data c) (py "order_") = true →
       callback_id "order_" c = Some vid →
       let w' := world_of (feed_update (CallbackQuery c) w) in
       get_state (cb_user c) w' = Some OrderPlacement_order_details
       ∧ get_data (cb_user c) w'
         = <["vendor_id" := PInt vid]> (get_data (cb_user c) w))
  ∧ (∀ c oid,
       startswith (cb_data c) (py "complete_") = true →
       callback_id "complete_" c = Some oid → sql_int oid = true →
       let w' := world_of (feed_update (CallbackQuery c) w) in
       get_state (cb_user c) w' = Some RatingState_stars
       ∧ get_data (cb_user c) w'
         = <["order_id" := PInt oid]> (get_data (cb_user c) w))
  ∧ (∀ m,
       is_command "start" m = false → is_command "register" m = true →
       get_vendor_by_telegram_id (from_user m) w = None →
       let w' := world_of (feed_update (Message m) w) in
       get_state (from_user m) w' = Some VendorRegistration_business_name
       ∧ get_data (from_user m) w' = get_data (from_user m) w).
Proof.
  split_and!.
  - intros m t st Hst _. by eapply in_flow_no_call.
  - intros m t st Hst _ Hflow Hc1 Hc2.
    pose proof (route_registration_step m w st Hst Hflow Hc1 Hc2) as Hr.
    destruct (step_handler st) as [h|] eqn:Hh; [|by destruct st].
    exists h. split; [done|]. unfold feed_update. by rewrite Hr.
  - intros c vid Hp Hid. unfold feed_update.
    rewrite (route_order_prefix c w Hp). simpl. unfold start_order.
    rewrite Hid. simpl. split; [apply get_state_set_state|].
    change (get_data ?u (send ?a ?b ?x)) with (get_data u x).
    rewrite get_data_set_state.
    change (get_data ?u (send ?a ?b ?x)) with (get_data u x).
    apply get_data_update_data.
  - intros c oid Hp Hid _. unfold feed_update.
    rewrite (route_complete_prefix c w Hp). simpl. unfold order_completed.
    rewrite Hid. simpl. split; [apply get_state_set_state|].
    change (get_data ?u (send ?a ?b ?x)) with (get_data u x).
    rewrite get_data_set_state.
    change (get_data ?u (send ?a ?b ?x)) with (get_data u x).
    rewrite get_data_update_data.
    by change (get_data ?u (update_order_status ?a ?b ?d ?x))
      with (get_data u x).
  - intros m Hc1 Hc2 Hv. unfold feed_update, route_message.
    rewrite Hc1, Hc2. simpl. unfold cmd_register. rewrite Hv. simpl.
    split; [apply get_state_set_state|].
    by rewrite get_data_set_state.
Qed.

(** C4 fails as stated: a user in the Registration flow who presses a
    "Place Order" button is moved to the Order flow; and free text sent
    in the Order flow is not handled by the flow's step, it is dropped. *)
Lemma second_flow_entered :
  let w := feed_updates [text_msg 7 "/register"; text_msg 7 "Jollof Spot"]
                        empty_world in
  get_state 7 w = Some VendorRegistration_services
  ∧ get_state 7 (world_of (feed_update (press 7 "order_1") w))
    = Some OrderPlacement_order_details
  ∧ let w' := world_of (feed_update (press 8 "order_1") registered_world) in
    get_state 8 w' = Some OrderPlacement_order_details
    ∧ feed_update (text_msg 8 "2 plates of rice") w' = Ok w'.
Proof. by vm_compute. Qed.

Lemma registered_vendor_found_witness :
  ∃ m, m ∈ search_vendors (py "I need rice") (vendors registered_world)
       ∧ m_vendor_id m = vendor_id jollof_spot
       ∧ m_services m = services jollof_spot
       ∧ 3 ≤ score m.
Proof.
  apply (registered_vendor_found (vendors registered_world) jollof_spot
           (py "I need rice") (py "rice")).
  - vm_compute. constructor.
  - apply (bool_decide_unpack _). by vm_compute.
  - apply (bool_decide_unpack _). by vm_compute.
Defined.

(** ** Order status *)

Lemma feed_update_orders (u : update) (w : world) :
  let w' := world_of (feed_update u w) in
  orders w' = orders w
  ∨ (∃ o, orders w' = orders w ++ [o] ∧ status o = pending)
  ∨ (∃ oid s stamp,
       (s = completed ∨ s = flagged)
       ∧ orders w' = orders (update_order_status oid s stamp w)).
Proof.
  destruct u as [m|c]; simpl.
  - destruct (route_message m w) as [h|]; [|by left].
    destruct h; simpl; try by left.
    + unfold cmd_register. case_match; by left.
    + unfold process_services. case_match; by left.
    + unfold process_bot_username. case_match; by left.
    + unfold process_description. case_match; by left.
    + unfold process_price_range.
      destruct (try_register m w) as [w'|] eqn:Hreg; [|by left].
      apply try_register_inv in Hreg as (row & r & _ & ->). by left.
    + unfold handle_conversation, cmd_register.
      repeat case_match; by left.
    + unfold complete_order. repeat case_match; try (by left); subst.
      all: match goal with
           | H : insert_order _ _ _ _ _ = Some _ |- _ =>
               apply insert_order_inv in H as (d & l & _ & _ & _ & ->)
           end; right; left; by eexists.
    + unfold process_review. repeat case_match; try (by left); subst.
      all: match goal with
           | H : insert_rating _ _ _ _ _ _ = Some _ |- _ =>
               apply insert_rating_inv in H as (_ & _ & ->)
           end; by left.
    + unfold cmd_order_history. repeat case_match; by left.
    + unfold cmd_my_rating. repeat case_match; by left.
  - destruct (route_callback c w) as [h|]; [|by left].
    destruct h; simpl; try by left.
    + unfold show_vendor_details. repeat case_match; by left.
    + unfold redirect_to_vendor_bot. repeat case_match; by left.
    + unfold start_order. case_match; by left.
    + unfold order_completed. case_match; [|by left].
      right; right. eexists _, completed, true. split; [by left | done].
    + unfold process_rating_stars. repeat case_match; by left.
    + unfold order_incomplete. case_match; [|by left].
      right; right. eexists _, flagged, false. split; [by right | done].
    + unfold show_contact. repeat case_match; by left.
Qed.

Lemma update_order_status_lookup (oid : Z) (s : order_status) (stamp : bool)
    (w : world) (i : nat) (o' : order_row) :
  orders (update_order_status oid s stamp w) !! i = Some o' →
  ∃ o, orders w !! i = Some o ∧ order_id o' = order_id o
       ∧ (o' = o ∨ (order_id o = oid ∧ status o' = s)).
Proof.
  unfold update_order_status. simpl.
  change (map ?f ?l) with (f <$> l). rewrite list_lookup_fmap.
  destruct (orders w !! i) as [o|]; [|done]. simpl. intros [= <-].
  exists o. split; [done|]. case_bool_decide; simpl; auto.
Qed.

(** C7, as the code has it: an order is created pending, and the only
    status ever written to an existing order is completed (the [complete_]
    action) or flagged (the [incomplete_] action), never pending.  The two
    actions write without reading the current status; what is guarded by
    the status being pending is the follow-up prompt that offers them. *)
Theorem order_status_writes (u : update) (w : world) :
  let w' := world_of (feed_update u w) in
  (∀ i o',
     orders w' !! i = Some o' →
     (∃ o, orders w !! i = Some o ∧ order_id o' = order_id o
           ∧ (status o' = status o ∨ status o' = completed
              ∨ status o' = flagged))
     ∨ (orders w !! i = None ∧ status o' = pending))
  ∧ (∀ c oid o',
       u = CallbackQuery c →
       startswith (cb_data c) (py "incomplete_") = true →
       callback_id "incomplete_" c = Some oid →
       o' ∈ orders w' → order_id o' = oid → status o' = flagged)
  ∧ (∀ c oid o',
       u = CallbackQuery c →
       startswith (cb_data c) (py "complete_") = true →
       callback_id "complete_" c = Some oid →
       o' ∈ orders w' → order_id o' = oid → status o' = completed)
  ∧ (∀ t,
       outbox (schedule_order_followup t w) ≠ outbox w →
       ∃ o, get_order t.1 w = Some o ∧ status o = pending).
Proof.
  intros w'. split; [|split; [|split]].
  - intros i o' Hi. subst w'.
    destruct (feed_update_orders u w)
      as [Heq | [(o & Heq & Ho) | (oid & s & stamp & Hs & Heq)]];
      rewrite Heq in Hi.
    + left. exists o'. auto.
    + destruct (orders w !! i) as [o0|] eqn:Hold.
      * left. exists o0. rewrite lookup_app_l in Hi
          by (by eapply lookup_lt_Some).
        rewrite Hold in Hi. injection Hi as <-. auto.
      * right. split; [done|].
        apply lookup_ge_None in Hold.
        rewrite lookup_app_r in Hi by done.
        apply list_elem_of_lookup_2, list_elem_of_singleton in Hi. by subst.
    + left. apply update_order_status_lookup in Hi
        as (o & Ho & Hid & [-> | [_ Hst]]).
      * exists o. auto.
      * exists o. split; [done|]. split; [done|].
        rewrite Hst. destruct Hs as [-> | ->]; auto.
  - intros c oid o' -> Hp Hid Hin Hoid. subst w'. simpl in Hin.
    rewrite (route_incomplete_prefix c w Hp) in Hin. simpl in Hin.
    unfold order_incomplete in Hin. rewrite Hid in Hin. simpl in Hin.
    apply list_elem_of_lookup in Hin as [i Hi].
    change (map ?f ?l) with (f <$> l) in Hi. rewrite list_lookup_fmap in Hi.
    destruct (orders w !! i) as [o|]; [|done]. simpl in Hi.
    injection Hi as <-. by case_bool_decide.
  - intros c oid o' -> Hp Hid Hin Hoid. subst w'. simpl in Hin.
    rewrite (route_complete_prefix c w Hp) in Hin. simpl in Hin.
    unfold order_completed in Hin. rewrite Hid in Hin. simpl in Hin.
    apply list_elem_of_lookup in Hin as [i Hi].
    change (map ?f ?l) with (f <$> l) in Hi. rewrite list_lookup_fmap in Hi.
    destruct (orders w !! i) as [o|]; [|done]. simpl in Hi.
    injection Hi as <-. by case_bool_decide.
  - intros t Hout. unfold schedule_order_followup in Hout.
    destruct (get_order t.1 w) as [o|]; [|done].
    exists o. split; [done|]. by destruct (status o).
Qed.

(** C7 fails as stated: an order that is completed can still be flagged,
    and a flagged order can still be marked completed. *)
Lemma completed_order_flagged :
  let w1 := world_of (feed_update (press 8 "complete_1") ordered_world) in
  let w2 := world_of (feed_update (press 8 "incomplete_1") w1) in
  let w3 := world_of (feed_update (press 8 "complete_1") w2) in
  map status (orders ordered_world) = [pending]
  ∧ map status (orders w1) = [completed]
  ∧ map status (orders w2) = [flagged]
  ∧ map status (orders w3) = [completed].
Proof. by vm_compute. Qed.

(** ** Rejected input *)

Lemma feed_update_raise (u : update) (w w' : world) (e : exn) :
  feed_update u w = Raise e w' →
  w' = w
  ∨ ∃ c st, u = CallbackQuery c ∧ callback_id "rate_" c = Some st
            ∧ w' = update_data (cb_user c) "stars" (PInt st) w.
Proof.
  destruct u as [m|c]; simpl.
  - destruct (route_message m w) as [h|]; [|done].
    destruct h; simpl; try done.
    + unfold cmd_register. by case_match.
    + unfold process_services. case_match; [done | intros [= _ <-]; by left].
    + unfold process_bot_username.
      case_match; [done | intros [= _ <-]; by left].
    + unfold process_description.
      case_match; [done | intros [= _ <-]; by left].
    + unfold handle_conversation, cmd_register. by repeat case_match.
    + unfold complete_order.
      repeat case_match; try done; intros [= _ <-]; by left.
    + unfold process_review.
      repeat case_match; try done; intros [= _ <-]; by left.
    + unfold cmd_order_history. by repeat case_match.
    + unfold cmd_my_rating. by repeat case_match.
  - destruct (route_callback c w) as [h|]; [|done].
    destruct h; simpl; try done.
    + unfold show_vendor_details. repeat case_match; try done;
        intros [= _ <-]; by left.
    + unfold redirect_to_vendor_bot. repeat case_match; try done;
        intros [= _ <-]; by left.
    + unfold start_order. case_match; [done | intros [= _ <-]; by left].
    + unfold order_completed. case_match; [done | intros [= _ <-]; by left].
    + unfold process_rating_stars.
      destruct (callback_id "rate_" c) as [st|] eqn:Hid;
        [|intros [= _ <-]; by left].
      case_match; [|done]. intros [= _ <-]. right. by exists c, st.
    + unfold order_incomplete. case_match; [done | intros [= _ <-]; by left].
    + unfold show_contact. repeat case_match; try done;
        intros [= _ <-]; by left.
Qed.

(** C8, as the code has it: no handler validates or re-prompts.  When a
    handler raises on input it cannot process, the step and the messages
    sent are as they were, and so is everything else, except that
    [process_rating_stars] has stored the stars by the time the building
    of its answer fails; free text sent while the Rating flow awaits the
    stars is dropped, with no change and no answer; and every Registration
    step accepts any text that is not the command [/start] or [/register]
    and moves on. *)
Theorem rejected_input_keeps_step (u : update) (w : world) :
  (∀ e w',
     feed_update u w = Raise e w' →
     (w' = w
      ∨ ∃ c st, u = CallbackQuery c ∧ callback_id "rate_" c = Some st
                ∧ w' = update_data (cb_user c) "stars" (PInt st) w)
     ∧ get_state (user_of u) w' = get_state (user_of u) w
     ∧ outbox w' = outbox w)
  ∧ (∀ m t,
       u = Message m →
       get_state (from_user m) w = Some RatingState_stars →
       free_text m = Some t →
       is_command "start" m = false → is_command "register" m = false →
       feed_update u w = Ok w)
  ∧ (∀ m t st,
       u = Message m →
       get_state (from_user m) w = Some st → flow_of st = Registration →
       text m = Some t →
       is_command "start" m = false → is_command "register" m = false →
       ∃ w', feed_update u w = Ok w'
             ∧ get_state (from_user m) w' = next_step st).
Proof.
  split; [|split].
  - intros e w' H.
    destruct (feed_update_raise u w w' e H) as [-> | (c & st & -> & Hid & ->)].
    + split; [by left | done].
    + split; [right; by exists c, st|]. split; [|done].
      apply get_state_update_data.
  - intros m t -> Hst Hfree Hc1 Hc2. simpl. unfold route_message.
    rewrite Hst, Hc1, Hc2, Hfree. simpl.
    unfold handle_conversation. by rewrite Hst.
  - intros m t st -> Hst Hflow Ht Hc1 Hc2. simpl.
    rewrite (route_registration_step m w st Hst Hflow Hc1 Hc2).
    destruct st; try done; simpl.
    + eexists. split; [done|]. apply get_state_set_state.
    + unfold process_services. rewrite Ht.
      eexists. split; [done|]. apply get_state_set_state.
    + eexists. split; [done|]. apply get_state_set_state.
    + unfold process_bot_username. rewrite Ht.
      eexists. split; [done|]. apply get_state_set_state.
    + unfold process_description. rewrite Ht.
      eexists. split; [done|]. apply get_state_set_state.
    + eexists. split; [done|]. apply get_state_clear.
Qed.

(** C8 fails as stated: free text sent while the stars are awaited gets
    no answer at all (the world, and with it the messages sent, is
    unchanged). *)
Lemma stars_free_text_unanswered :
  get_state 8 awaiting_stars_world = Some RatingState_stars
  ∧ feed_update (text_msg 8 "five stars") awaiting_stars_world
    = Ok awaiting_stars_world
  ∧ outbox (world_of (feed_update (text_msg 8 "five stars")
                                  awaiting_stars_world))
    = outbox awaiting_stars_world.
Proof. by vm_compute. Qed.

(** ** Failure at completion *)

(** Registration catches the failure: the user is told, the state is
    cleared, and the vendors table is as it was. *)
Lemma process_price_range_failure (m : message) (w : world) :
  try_register m w = None →
  process_price_range m w
  = Ok (clear (from_user m) (send (from_user m) RRegistrationFailed w))
  ∧ vendors (world_of (process_price_range m w)) = vendors w
  ∧ get_state (from_user m) (world_of (process_price_range m w)) = None
  ∧ get_data (from_user m) (world_of (process_price_range m w)) = ∅.
Proof.
  intros H. unfold process_price_range. rewrite H. simpl.
  split; [done|]. split; [done|].
  split; [apply get_state_clear | apply get_data_clear].
Qed.

(** Registration either commits one full row or none. *)
Lemma process_price_range_atomic (m : message) (w : world) :
  let w' := world_of (process_price_range m w) in
  get_state (from_user m) w' = None
  ∧ (vendors w' = vendors w
     ∨ ∃ row, vendors w' = vendors w ++ [row]
              ∧ telegram_id row = from_user m).
Proof.
  unfold process_price_range.
  destruct (try_register m w) as [w1|] eqn:Hreg; simpl.
  - split; [apply get_state_clear|].
    apply try_register_inv in Hreg as (row & r & Hrow & ->). right. eauto.
  - split; [apply get_state_clear | by left].
Qed.

(** C6, the Order flow: when the INSERT of the order fails (here the
    deadline is a message without text, [NULL] in a [NOT NULL] column),
    [complete_order] raises; the state stays at the deadline step, the
    collected fields stay, and nothing is sent to the user. *)
Theorem complete_order_failure_unhandled :
  let w := feed_updates [press 8 "order_1"; text_msg 8 "/2 plates"]
                        registered_world in
  get_state 8 w = Some OrderPlacement_deadline
  ∧ feed_update (photo 8) w = Raise IntegrityError w
  ∧ get_state 8 (world_of (feed_update (photo 8) w))
    = Some OrderPlacement_deadline
  ∧ outbox (world_of (feed_update (photo 8) w)) = outbox w.
Proof. by vm_compute. Qed.

(** ** Rating aggregate *)

(** *** Doubles *)









Lemma select_avg_count_mean (vid : Z) (rs : list rating_row) :
  let ss := map stars (filter (λ r, r_vendor_id r = vid) rs) in
  (select_avg_count vid rs).2 = Z.of_nat (length ss)
  ∧ default 0%Qc (select_avg_count vid rs).1 = to_double (mean ss).
Proof.
  unfold select_avg_count, vendor_stars, mean. simpl.
  by destruct (map stars (filter _ rs)) as [|s ss].
Qed.

Lemma update_vendor_rating_row (vid : Z) (w : world) (v : vendor_row) :
  v ∈ vendors (update_vendor_rating vid w) → vendor_id v = vid →
  let ss := map stars (filter (λ r, r_vendor_id r = vid) (ratings w)) in
  total_orders v = Z.of_nat (length ss)
  ∧ avg_rating v = to_double (mean ss).
Proof.
  unfold update_vendor_rating. simpl. intros Hin Hid.
  change (map ?f ?l) with (f <$> l) in Hin.
  apply list_elem_of_fmap in Hin as (v0 & -> & _).
  destruct (select_avg_count_mean vid (ratings w)) as [Hcount Hmean].
  case_bool_decide as Hv0; simpl in *; [|done].
  split; [done|]. rewrite <- Hmean.
  destruct (select_avg_count vid (ratings w)).1 as [a|]; [|done].
  by case_bool_decide.
Qed.




(** Ratings 5, 3 and 4 give the count 3 and the mean 4 in whichever order
    they are inserted. *)
Example aggregate_5_3_4 :
  aggregates_after "rate_5" "rate_3" "rate_4" = [(3%Z, 4%Q)]
  ∧ aggregates_after "rate_4" "rate_3" "rate_5" = [(3%Z, 4%Q)]
  ∧ aggregates_after "rate_3" "rate_5" "rate_4" = [(3%Z, 4%Q)]
  ∧ aggregates_after "rate_5" "rate_4" "rate_3" = [(3%Z, 4%Q)].
Proof. by vm_compute. Qed.

(** ** The theorems at work on the scenarios *)

Lemma detect_intent_first_match_witness :
  detect_intent (py "Hello, I need food") = greeting.
Proof.
  apply (detect_intent_first_match (py "Hello, I need food"));
    by vm_compute.
Defined.

Lemma search_vendors_ranked_witness :
  search_vendors (py "I need rice, food")
                 [rice_bowl; barber; jollof_spot; rice_hut]
  ≡ₚ map (ranked (extract_keywords (py "I need rice, food")))
         (filter (λ v, 0 < ranked_score
                             (extract_keywords (py "I need rice, food")) v)
                 [rice_bowl; barber; jollof_spot; rice_hut]).
Proof.
  apply (search_vendors_ranked (py "I need rice, food")
           [rice_bowl; barber; jollof_spot; rice_hut]).
Defined.

(** The ranking on four vendors: the vendor whose services hold a keyword
    comes first; the one whose description holds the second keyword
    follows; the vendor without a matching text is left out. *)
Example search_vendors_ranking :
  map (λ m, (m_vendor_id m, score m))
      (search_vendors (py "I need rice, food")
                      [rice_bowl; barber; jollof_spot; rice_hut])
  = [(1%Z, 3); (3%Z, 2); (2%Z, 1)]
  ∧ map (λ m, (m_vendor_id m, score m))
        (search_vendors (py "rice") [rice_bowl; barber; rice_hut])
    = [(2%Z, 1); (3%Z, 1)].
Proof. by vm_compute. Qed.

Lemma flow_precedence_witness :
  get_state 7 registering_world = Some VendorRegistration_services
  ∧ calls (world_of (feed_update (Message need_food) registering_world))
    = calls registering_world
  ∧ (∃ h, step_handler VendorRegistration_services = Some h
          ∧ feed_update (Message need_food) registering_world
            = run_message h need_food registering_world)
  ∧ get_state 7 (world_of (feed_update (press 7 "order_1") registering_world))
    = Some OrderPlacement_order_details.
Proof.
  destruct (flow_precedence registering_world)
    as (Hcalls & Hstep & Horder & _ & _).
  split; [by vm_compute|]. split; [|split].
  - apply (Hcalls need_food (py "I need food") VendorRegistration_services);
      by vm_compute.
  - apply (Hstep need_food (py "I need food") VendorRegistration_services);
      by vm_compute.
  - apply (Horder {| cb_user := 7; cb_data := py "order_1" |} 1%Z);
      by vm_compute.
Defined.

Lemma order_status_writes_witness :
  Forall (λ o', status o' = flagged)
         (orders (world_of (feed_update (CallbackQuery press_incomplete)
                                        ordered_world))).
Proof.
  destruct (order_status_writes (CallbackQuery press_incomplete) ordered_world)
    as (_ & Hflag & _ & _).
  apply list.Forall_forall. intros o' Hin.
  apply (Hflag press_incomplete 1%Z o'); try by vm_compute.
  vm_compute in Hin. by apply list_elem_of_singleton in Hin as ->.
Defined.

Lemma rejected_input_keeps_step_witness :
  feed_update (Message five_stars) awaiting_stars_world
  = Ok awaiting_stars_world.
Proof.
  destruct (rejected_input_keeps_step (Message five_stars) awaiting_stars_world)
    as (_ & Hstars & _).
  apply (Hstars five_stars (py "five stars")); by vm_compute.
Defined.

(* ================================================================== *)
(** * Further properties of the code *)

(** ** Text functions *)

Lemma is_word_lower_char (c : ascii) : is_word (lower_char c) = is_word c.
Proof. by destruct c as [[] [] [] [] [] [] [] []]. Qed.

Lemma findall_from_sep (cur a b : str) (c : ascii) :
  is_word c = false →
  findall_from cur (a ++ c :: b) = findall_from cur a ++ findall_words b.
Proof.
  intros Hc. revert cur. induction a as [|x a IH]; intros cur; simpl.
  - by rewrite Hc.
  - destruct (is_word x); [apply IH|]. by rewrite IH, app_assoc.
Qed.

(** The classifier and the extractor do not see the case of letters. *)
Theorem classification_ignores_case (text : str) :
  extract_keywords (lower text) = extract_keywords text
  ∧ detect_intent (lower text) = detect_intent text
  ∧ ∀ vs, search_vendors (lower text) vs = search_vendors text vs.
Proof.
  assert (extract_keywords (lower text) = extract_keywords text) as Hk.
  { unfold extract_keywords. by rewrite lower_idemp. }
  split_and!; [done | |].
  - unfold detect_intent. by rewrite lower_idemp, Hk.
  - intros vs. unfold search_vendors. by rewrite Hk.
Qed.

(** For ASCII text: the keywords of two texts put side by side with a
    separator (any character that is not a letter, a digit or an
    underscore) are the keywords of the first followed by the keywords of
    the second. *)
Theorem extract_keywords_sep (a b : str) (c : ascii) :
  Forall (λ x, nat_of_ascii x < 128) (a ++ c :: b) →
  is_word c = false →
  extract_keywords (a ++ c :: b) = extract_keywords a ++ extract_keywords b.
Proof.
  intros _ Hc. unfold extract_keywords, findall_words.
  rewrite lower_app. simpl.
  rewrite findall_from_sep by (by rewrite is_word_lower_char).
  apply list.filter_app.
Qed.

Lemma extract_keywords_sep_witness :
  extract_keywords (py "fried rice" ++ ","%char :: py " jollof")
  = extract_keywords (py "fried rice") ++ extract_keywords (py " jollof").
Proof.
  apply (extract_keywords_sep _ _ ","%char); [|by vm_compute].
  apply (bool_decide_unpack _). by vm_compute.
Defined.

(** ** Scores of the matcher *)

(** Every match returned comes from a vendor of the table, and its score
    is at least 1 and at most the number of query keywords plus 2. *)
Theorem search_scores_bounded (query : str) (vs : list vendor_row)
    (m : vendor_match) :
  m ∈ search_vendors query vs →
  (∃ v, v ∈ vs ∧ m = to_match v (vendor_score (extract_keywords query) v))
  ∧ 1 ≤ score m ≤ length (extract_keywords query) + 2.
Proof.
  unfold search_vendors. intros Hm.
  destruct (extract_keywords query) as [|k ks] eqn:Hks;
    [by apply elem_of_nil in Hm|].
  rewrite sort_desc_perm, scan_vendors_filter in Hm.
  apply list_elem_of_fmap in Hm as (v & -> & Hv).
  apply list_elem_of_filter in Hv as [Hpos Hv].
  split; [by exists v|].
  change (score (to_match v (vendor_score (k :: ks) v)))
    with (vendor_score (k :: ks) v).
  split; [lia|]. clear Hpos. unfold vendor_score.
  pose proof (length_filter (λ keyword, str_in keyword (searchable v))
                            (k :: ks)) as Hlen.
  destruct (any_in (k :: ks) (lower (services v))); lia.
Qed.

Lemma search_scores_bounded_witness :
  (∃ v, v ∈ [jollof_spot]
        ∧ to_match jollof_spot 3
          = to_match v (vendor_score (extract_keywords (py "I need rice")) v))
  ∧ 1 ≤ score (to_match jollof_spot 3)
      ≤ length (extract_keywords (py "I need rice")) + 2.
Proof.
  apply (search_scores_bounded (py "I need rice") [jollof_spot]).
  vm_compute. constructor.
Defined.

(** ** Sessions *)

Lemma storage_put_session_ne (uid uid' : Z) (s : session) (w : world) :
  uid ≠ uid' → storage (put_session uid s w) !! uid' = storage w !! uid'.
Proof. intros H. unfold put_session. simpl. by rewrite lookup_insert_ne. Qed.

Lemma storage_set_state_ne (uid uid' : Z) (st : fsm_state) (w : world) :
  uid ≠ uid' → storage (set_state uid st w) !! uid' = storage w !! uid'.
Proof. apply storage_put_session_ne. Qed.

Lemma storage_update_data_ne (uid uid' : Z) k v (w : world) :
  uid ≠ uid' → storage (update_data uid k v w) !! uid' = storage w !! uid'.
Proof. apply storage_put_session_ne. Qed.

Lemma storage_clear_ne (uid uid' : Z) (w : world) :
  uid ≠ uid' → storage (clear uid w) !! uid' = storage w !! uid'.
Proof. apply storage_put_session_ne. Qed.

Ltac frame_storage :=
  cbn [storage world_of set_state update_data clear put_session send
       create_task record_call set_vendors set_orders set_ratings
       update_vendor_rating update_order_status show_vendor_info];
  rewrite ?lookup_insert_ne by done.

(** An update changes no session but its sender's. *)
Theorem sessions_isolated (u : update) (w : world) (uid : Z) :
  user_of u ≠ uid →
  storage (world_of (feed_update u w)) !! uid = storage w !! uid.
Proof.
  intros Hne. destruct u as [m|c]; simpl in Hne; simpl.
  - destruct (route_message m w) as [h|]; [|done].
    destruct h; simpl; try done; try (by frame_storage).
    + unfold cmd_register. case_match; simpl; by frame_storage.
    + unfold process_services. case_match; simpl; by frame_storage.
    + unfold process_bot_username. case_match; simpl; by frame_storage.
    + unfold process_description. case_match; simpl; by frame_storage.
    + unfold process_price_range.
      destruct (try_register m w) as [w'|] eqn:Hreg; simpl.
      * apply try_register_inv in Hreg as (row & r & _ & ->).
        by frame_storage.
      * by frame_storage.
    + unfold handle_conversation, cmd_register.
      repeat case_match; simpl; by frame_storage.
    + unfold complete_order. repeat case_match; try done; subst.
      all: match goal with
           | H : insert_order _ _ _ _ _ = Some _ |- _ =>
               apply insert_order_inv in H as (d & l & _ & _ & _ & ->)
           end; simpl; by frame_storage.
    + unfold process_review. repeat case_match; try done; subst.
      all: match goal with
           | H : insert_rating _ _ _ _ _ _ = Some _ |- _ =>
               apply insert_rating_inv in H as (_ & _ & ->)
           end; simpl; by frame_storage.
    + unfold cmd_order_history. repeat case_match; simpl; by frame_storage.
    + unfold cmd_my_rating. repeat case_match; simpl; by frame_storage.
  - destruct (route_callback c w) as [h|]; [|done].
    destruct h; simpl; try done.
    + unfold show_vendor_details. repeat case_match; simpl; by frame_storage.
    + unfold redirect_to_vendor_bot.
      repeat case_match; simpl; by frame_storage.
    + unfold start_order. case_match; simpl; by frame_storage.
    + unfold order_completed. case_match; simpl; by frame_storage.
    + unfold process_rating_stars. repeat case_match; simpl; by frame_storage.
    + unfold order_incomplete. case_match; simpl; by frame_storage.
    + unfold show_contact. repeat case_match; simpl; by frame_storage.
Qed.

Lemma sessions_isolated_witness :
  storage (world_of (feed_update (press 8 "order_1") registering_world)) !! 7%Z
  = storage registering_world !! 7%Z.
Proof. by apply (sessions_isolated (press 8 "order_1")). Defined.

(** ** Free text *)

Lemma free_text_text (m : message) (t : str) :
  free_text m = Some t → text m = Some t.
Proof.
  unfold free_text. destruct (text m) as [[|c s]|]; try done.
  by case_match.
Qed.

Lemma route_idle_free_text (m : message) (t : str) (w : world) :
  get_state (from_user m) w = None → free_text m = Some t →
  is_command "start" m = false → is_command "register" m = false →
  route_message m w = Some h_handle_conversation.
Proof.
  intros Hst Hfree Hc1 Hc2. unfold route_message.
  by rewrite Hst, Hc1, Hc2, Hfree.
Qed.

(** An idle user's free text that is not classified as a registration
    request changes no session and no table: it is answered by exactly
    one message to the sender, and the classifier is called once. *)
Theorem idle_free_text_answered (m : message) (t : str) (w : world) :
  get_state (from_user m) w = None → free_text m = Some t →
  is_command "start" m = false → is_command "register" m = false →
  detect_intent t ≠ register →
  ∃ w' r,
    feed_update (Message m) w = Ok w'
    ∧ storage w' = storage w ∧ vendors w' = vendors w
    ∧ orders w' = orders w ∧ ratings w' = ratings w
    ∧ outbox w' = outbox w ++ [(from_user m, r)]
    ∧ calls w' = calls w ++ CallDetectIntent t ::
                 match detect_intent t with
                 | search => [CallSearchVendors t]
                 | _ => []
                 end.
Proof.
  intros Hst Hfree Hc1 Hc2 Hint. simpl.
  rewrite (route_idle_free_text m t w Hst Hfree Hc1 Hc2). simpl.
  rewrite (free_text_text m t Hfree). simpl.
  unfold handle_conversation. rewrite Hst.
  destruct (detect_intent t); try done;
    try (eexists _, _; split_and!; reflexivity).
  destruct (search_vendors t _) as [|v [|v' l]];
    eexists _, _; split_and!; try reflexivity;
    cbn [calls send record_call show_vendor_info];
    by rewrite <- app_assoc.
Qed.

Lemma idle_free_text_answered_witness :
  ∃ w' r,
    feed_update (text_msg 8 "I need rice") registered_world = Ok w'
    ∧ storage w' = storage registered_world
    ∧ vendors w' = vendors registered_world
    ∧ orders w' = orders registered_world
    ∧ ratings w' = ratings registered_world
    ∧ outbox w' = outbox registered_world ++ [(8%Z, r)]
    ∧ calls w' = calls registered_world ++ CallDetectIntent (py "I need rice") ::
                 match detect_intent (py "I need rice") with
                 | search => [CallSearchVendors (py "I need rice")]
                 | _ => []
                 end.
Proof.
  apply (idle_free_text_answered
           {| from_user := 8; text := Some (py "I need rice");
              caption := None; me := cxt_bot |}
           (py "I need rice") registered_world); by vm_compute.
Defined.

(** Free text sent in a step of the Order flow or of the Rating flow
    reaches [handle_conversation], which is registered before the
    handlers of those steps and returns at once: nothing changes and
    nothing is sent. *)
Theorem free_text_dropped (m : message) (t : str) (w : world)
    (st : fsm_state) :
  get_state (from_user m) w = Some st → flow_of st ≠ Registration →
  free_text m = Some t →
  is_command "start" m = false → is_command "register" m = false →
  feed_update (Message m) w = Ok w.
Proof.
  intros Hst Hflow Hfree Hc1 Hc2. simpl. unfold route_message.
  rewrite Hst, Hc1, Hc2, Hfree.
  destruct st; try done; simpl; unfold handle_conversation; by rewrite Hst.
Qed.

Lemma free_text_dropped_witness :
  feed_update (text_msg 8 "2 plates of rice")
              (world_of (feed_update (press 8 "order_1") registered_world))
  = Ok (world_of (feed_update (press 8 "order_1") registered_world)).
Proof.
  apply (free_text_dropped
           {| from_user := 8; text := Some (py "2 plates of rice");
              caption := None; me := cxt_bot |}
           (py "2 plates of rice") _ OrderPlacement_order_details);
    by vm_compute.
Defined.

(** ** What an update does to the tables *)

Lemma feed_update_vendors_ratings (u : update) (w : world) :
  let w' := world_of (feed_update u w) in
  (vendors w' = vendors w ∧ ratings w' = ratings w)
  ∨ (∃ row,
       vendors w' = vendors w ++ [row] ∧ ratings w' = ratings w
       ∧ vendor_id row = next_id (vendors w)
       ∧ telegram_id row = user_of u
       ∧ (telegram_id row ∉ map telegram_id (vendors w))
       ∧ total_orders row = 0%Z ∧ avg_rating row = 0%Qc)
  ∨ (∃ r,
       ratings w' = ratings w ++ [r]
       ∧ vendors w'
         = vendors (update_vendor_rating (r_vendor_id r)
                      (set_ratings (ratings w ++ [r]) w))
       ∧ rating_id r = next_id (ratings w)
       ∧ (r_order_id r ∉ map r_order_id (ratings w))
       ∧ (1 ≤ stars r ≤ 5)%Z
       ∧ (get_order (r_order_id r) w ≫= λ o, Some (o_vendor_id o))
         = Some (r_vendor_id r)).
Proof.
  destruct u as [m|c]; simpl.
  - destruct (route_message m w) as [h|]; [|by left].
    destruct h; simpl; try by left.
    + unfold cmd_register. case_match; by left.
    + unfold process_services. case_match; by left.
    + unfold process_bot_username. case_match; by left.
    + unfold process_description. case_match; by left.
    + unfold process_price_range.
      destruct (try_register m w) as [w'|] eqn:Hreg; [|by left].
      unfold try_register in Hreg.
      repeat (match type of Hreg with
              | (?o ≫= _) = Some _ =>
                  let x := fresh "x" in
                  destruct o as [x|] eqn:?; simpl in Hreg; [|done]
              end).
      match goal with
      | Hi : insert_vendor _ _ _ _ _ _ _ _ _ = Some _ |- _ =>
          apply insert_vendor_inv in Hi
            as (n & s & k & c & _ & _ & _ & _ & Hnew & ->)
      end.
      injection Hreg as <-. right; left. eexists. by split_and!.
    + unfold handle_conversation, cmd_register.
      repeat case_match; by left.
    + unfold complete_order. repeat case_match; try (by left); subst.
      all: match goal with
           | H : insert_order _ _ _ _ _ = Some _ |- _ =>
               apply insert_order_inv in H as (d & l & _ & _ & _ & ->)
           end; by left.
    + unfold process_review.
      destruct (get_data (from_user m) w !! "order_id") as [[|oid|]|];
        try (by left);
        destruct (get_data (from_user m) w !! "stars") as [[|st|]|];
        try (by left).
      destruct (get_order oid w) as [o|] eqn:Ho; [|by left].
      destruct (insert_rating _ _ _ _ _ w) as [w1|] eqn:Hi; [|by left].
      apply insert_rating_inv in Hi as (Hnew & Hstars & ->).
      right; right. eexists. split_and!; try done;
        cbn [stars r_order_id r_vendor_id]; [lia | lia | by rewrite Ho].
    + unfold cmd_order_history. repeat case_match; by left.
    + unfold cmd_my_rating. repeat case_match; by left.
  - destruct (route_callback c w) as [h|]; [|by left].
    destruct h; simpl; try by left.
    + unfold show_vendor_details. repeat case_match; by left.
    + unfold redirect_to_vendor_bot. repeat case_match; by left.
    + unfold start_order. case_match; by left.
    + unfold order_completed. case_match; by left.
    + unfold process_rating_stars. repeat case_match; by left.
    + unfold order_incomplete. case_match; by left.
    + unfold show_contact. repeat case_match; by left.
Qed.

Lemma feed_update_orders_detail (u : update) (w : world) :
  let w' := world_of (feed_update u w) in
  orders w' = orders w
  ∨ (∃ o, orders w' = orders w ++ [o]
          ∧ order_id o = next_id (orders w) ∧ buyer_id o = user_of u
          ∧ status o = pending)
  ∨ (∃ oid s stamp, orders w' = orders (update_order_status oid s stamp w)).
Proof.
  destruct u as [m|c]; simpl.
  - destruct (route_message m w) as [h|]; [|by left].
    destruct h; simpl; try by left.
    + unfold cmd_register. case_match; by left.
    + unfold process_services. case_match; by left.
    + unfold process_bot_username. case_match; by left.
    + unfold process_description. case_match; by left.
    + unfold process_price_range.
      destruct (try_register m w) as [w'|] eqn:Hreg; [|by left].
      apply try_register_inv in Hreg as (row & r & _ & ->). by left.
    + unfold handle_conversation, cmd_register.
      repeat case_match; by left.
    + unfold complete_order. repeat case_match; try (by left); subst.
      all: match goal with
           | H : insert_order _ _ _ _ _ = Some _ |- _ =>
               apply insert_order_inv in H as (d & l & _ & _ & -> & ->)
           end; right; left; eexists; by split_and!.
    + unfold process_review. repeat case_match; try (by left); subst.
      all: match goal with
           | H : insert_rating _ _ _ _ _ _ = Some _ |- _ =>
               apply insert_rating_inv in H as (_ & _ & ->)
           end; by left.
    + unfold cmd_order_history. repeat case_match; by left.
    + unfold cmd_my_rating. repeat case_match; by left.
  - destruct (route_callback c w) as [h|]; [|by left].
    destruct h; simpl; try by left.
    + unfold show_vendor_details. repeat case_match; by left.
    + unfold redirect_to_vendor_bot. repeat case_match; by left.
    + unfold start_order. case_match; by left.
    + unfold order_completed. case_match; [|by left].
      right; right. by eexists _, completed, true.
    + unfold process_rating_stars. repeat case_match; by left.
    + unfold order_incomplete. case_match; [|by left].
      right; right. by eexists _, flagged, false.
    + unfold show_contact. repeat case_match; by left.
Qed.

Lemma update_vendor_rating_profile (vid : Z) (w : world) :
  map vendor_profile (vendors (update_vendor_rating vid w))
  = map vendor_profile (vendors w).
Proof.
  unfold update_vendor_rating. cbn [vendors set_vendors].
  rewrite map_map. apply map_ext. intros v. by case_bool_decide.
Qed.

Lemma update_order_status_facts (oid : Z) s stamp (w : world) :
  map order_facts (orders (update_order_status oid s stamp w))
  = map order_facts (orders w).
Proof.
  unfold update_order_status. cbn [orders set_orders].
  rewrite map_map. apply map_ext. intros o. by case_bool_decide.
Qed.

(** No update deletes a row, and a row once written changes only in the
    vendor's aggregate rating and count and in the order's status:
    ratings are never changed at all. *)
Theorem rows_persist (u : update) (w : world) :
  let w' := world_of (feed_update u w) in
  map vendor_profile (vendors w) `prefix_of` map vendor_profile (vendors w')
  ∧ map order_facts (orders w) `prefix_of` map order_facts (orders w')
  ∧ ratings w `prefix_of` ratings w'.
Proof.
  intros w'. subst w'. split_and!.
  - destruct (feed_update_vendors_ratings u w)
      as [[-> _] | [(row & -> & _) | (r & _ & -> & _)]].
    + done.
    + rewrite map_app. by apply prefix_app_r.
    + by rewrite update_vendor_rating_profile.
  - destruct (feed_update_orders_detail u w)
      as [-> | [(o & -> & _) | (oid & s & stamp & ->)]].
    + done.
    + rewrite map_app. by apply prefix_app_r.
    + by rewrite update_order_status_facts.
  - destruct (feed_update_vendors_ratings u w)
      as [[_ ->] | [(row & _ & -> & _) | (r & -> & _)]];
      [done | done | by apply prefix_app_r].
Qed.

(** ** Keys *)

Lemma keyed_snoc {A} (key : A → Z) (l : list A) (x : A) :
  (∀ i a, l !! i = Some a → key a = Z.of_nat i + 1)%Z →
  key x = next_id l →
  (∀ i a, (l ++ [x]) !! i = Some a → key a = Z.of_nat i + 1)%Z.
Proof.
  intros Hl Hx i a Hi. destruct (decide (i < length l)) as [Hlt|Hge].
  - rewrite lookup_app_l in Hi by done. by apply Hl.
  - rewrite lookup_app_r in Hi by lia.
    apply list_lookup_singleton_Some in Hi as [Hi <-].
    rewrite Hx. unfold next_id. lia.
Qed.

Lemma keyed_map {A} (key : A → Z) (f : A → A) (l : list A) :
  (∀ a, key (f a) = key a) →
  (∀ i a, l !! i = Some a → key a = Z.of_nat i + 1)%Z →
  (∀ i a, map f l !! i = Some a → key a = Z.of_nat i + 1)%Z.
Proof.
  intros Hf Hl i a Hi. change (map f l) with (f <$> l) in Hi.
  rewrite list_lookup_fmap in Hi.
  destruct (l !! i) as [a0|] eqn:Ha0; [|done]. injection Hi as <-.
  rewrite Hf. by apply Hl.
Qed.

Lemma NoDup_map_snoc {A} (f : A → Z) (l : list A) (x : A) :
  NoDup (map f l) → f x ∉ map f l → NoDup (map f (l ++ [x])).
Proof.
  intros Hl Hx. rewrite map_app. apply list.NoDup_app. split_and!; [done| |].
  - intros y Hy Hin. simpl in Hin.
    apply list_elem_of_singleton in Hin. by subst.
  - apply NoDup_singleton.
Qed.

Lemma update_vendor_rating_keys (vid : Z) (w : world) :
  vendors (update_vendor_rating vid w)
  = map (λ v, if bool_decide (vendor_id v = vid)
              then {| vendor_id := vendor_id v; telegram_id := telegram_id v;
                      business_name := business_name v;
                      services := services v; keywords := keywords v;
                      contact := contact v; bot_username := bot_username v;
                      description := description v;
                      price_range := price_range v;
                      total_orders := (select_avg_count vid (ratings w)).2;
                      avg_rating :=
                        match (select_avg_count vid (ratings w)).1 with
                        | Some a => if bool_decide (a = 0%Qc) then 0%Qc else a
                        | None => 0%Qc
                        end |}
              else v) (vendors w).
Proof. done. Qed.

Lemma well_keyed_step (u : update) (w : world) :
  well_keyed w → well_keyed (world_of (feed_update u w)).
Proof.
  intros (Hvid & Htid & Hoid & Hrid & Hrated & Hstars).
  unfold well_keyed.
  destruct (feed_update_orders_detail u w)
    as [-> | [(o & -> & Ho & _) | (oid & s & stamp & ->)]];
    (destruct (feed_update_vendors_ratings u w)
      as [[-> ->] | [(row & -> & -> & Hrow & _ & Hnew & _)
                    | (r & -> & -> & Hr & Hnew & Hst & _)]]);
    rewrite ?update_vendor_rating_keys; split_and!; try done.
  all: try (by apply keyed_snoc).
  all: try (by apply keyed_map; [intros ?; by case_bool_decide | done]).
  all: try (by apply NoDup_map_snoc).
  all: try (rewrite map_map;
            by erewrite map_ext; [exact Htid | intros ?; by case_bool_decide]).
  all: try (apply Forall_app; split; [done | by constructor]).
Qed.

Lemma well_keyed_empty : well_keyed empty_world.
Proof.
  unfold well_keyed, empty_world. simpl.
  split_and!; try done; constructor.
Qed.

Lemma well_keyed_feed_updates (us : list update) (w : world) :
  well_keyed w → well_keyed (feed_updates us w).
Proof.
  unfold feed_updates. revert w.
  induction us as [|u us IH]; intros w Hw; [done|].
  simpl. apply IH. by apply well_keyed_step.
Qed.

(** Whatever updates the bot has served since it started with empty
    tables: identifiers number the rows of each table from 1, no two
    vendors have the same owner, no order has two ratings, and every
    rating has between 1 and 5 stars. *)
Theorem tables_well_keyed (us : list update) :
  well_keyed (feed_updates us empty_world).
Proof. apply well_keyed_feed_updates, well_keyed_empty. Qed.

(** In those tables a row is found again by its key: a vendor by its
    identifier and by its owner, an order by its identifier. *)
Theorem lookup_finds_row (us : list update) :
  let w := feed_updates us empty_world in
  (∀ v, v ∈ vendors w →
        get_vendor (vendor_id v) w = Some v
        ∧ get_vendor_by_telegram_id (telegram_id v) w = Some v)
  ∧ (∀ o, o ∈ orders w → get_order (order_id o) w = Some o).
Proof.
  intros w.
  destruct (well_keyed_feed_updates us empty_world well_keyed_empty)
    as (Hvid & Htid & Hoid & _). fold w in Hvid, Htid, Hoid.
  split.
  - intros v [i Hi]%list_elem_of_lookup. split.
    + unfold get_vendor.
      assert (list_find (λ v0, vendor_id v0 = vendor_id v) (vendors w)
              = Some (i, v)) as ->; [|done].
      apply list_find_Some. split_and!; [done | done |].
      intros j y Hj Hlt. rewrite (Hvid _ _ Hj), (Hvid _ _ Hi). lia.
    + unfold get_vendor_by_telegram_id.
      assert (list_find (λ v0, telegram_id v0 = telegram_id v) (vendors w)
              = Some (i, v)) as ->; [|done].
      apply list_find_Some. split_and!; [done | done |].
      intros j y Hj Hlt Heq.
      assert (map telegram_id (vendors w) !! i = Some (telegram_id v)) as H1.
      { change (map ?f ?l) with (f <$> l).
        by rewrite list_lookup_fmap, Hi. }
      assert (map telegram_id (vendors w) !! j = Some (telegram_id v)) as H2.
      { change (map ?f ?l) with (f <$> l).
        by rewrite list_lookup_fmap, Hj, <- Heq. }
      pose proof (NoDup_lookup _ _ _ _ Htid H1 H2). lia.
  - intros o [i Hi]%list_elem_of_lookup. unfold get_order.
    assert (list_find (λ o0, order_id o0 = order_id o) (orders w)
            = Some (i, o)) as ->; [|done].
    apply list_find_Some. split_and!; [done | done |].
    intros j y Hj Hlt. rewrite (Hoid _ _ Hj), (Hoid _ _ Hi). lia.
Qed.

(** ** The Registration flow, end to end *)

Lemma is_command_plain (bot : str) (uid : Z) (t : str) :
  plain t →
  is_command "start" (said bot uid t) = false
  ∧ is_command "register" (said bot uid t) = false.
Proof.
  unfold plain, is_command, text_or_caption, said. cbn [text caption me].
  destruct t as [|c t]; [done|]. cbn [mbind option_bind].
  destruct (parse_command (c :: t)) as [[command mention]|]; [|done].
  intros [H1 H2].
  by rewrite (bool_decide_eq_false_2 _ H1), (bool_decide_eq_false_2 _ H2).
Qed.

Lemma get_vendor_by_telegram_id_None (tid : Z) (w : world) :
  get_vendor_by_telegram_id tid w = None → tid ∉ map telegram_id (vendors w).
Proof.
  unfold get_vendor_by_telegram_id. intros H Hin.
  change (map ?f ?l) with (f <$> l) in Hin.
  apply list_elem_of_fmap in Hin as (v & Hv & Hin).
  destruct (list_find _ (vendors w)) as [[i x]|] eqn:Hfind; [done|].
  apply list_find_None in Hfind. rewrite list.Forall_forall in Hfind.
  by apply (Hfind v).
Qed.

Lemma route_step (bot : str) (uid : Z) (t : str) (w : world)
    (st : fsm_state) :
  get_state uid w = Some st → flow_of st = Registration → plain t →
  route_message (said bot uid t) w = step_handler st.
Proof.
  intros Hst Hflow [H1 H2]%(is_command_plain bot uid).
  by apply route_registration_step.
Qed.

Lemma advance_spec (uid : Z) (st : fsm_state) (r : reply) (k : string)
    (v : pyval) (w : world) :
  let w' := set_state uid st (send uid r (update_data uid k v w)) in
  get_state uid w' = Some st
  ∧ get_data uid w' = <[k := v]> (get_data uid w)
  ∧ vendors w' = vendors w ∧ orders w' = orders w ∧ ratings w' = ratings w.
Proof.
  intros w'. subst w'. split_and!; try done.
  - apply get_state_set_state.
  - rewrite get_data_set_state. apply get_data_update_data.
Qed.

Lemma try_register_ok (m : message) (w : world) (n s k c d : str)
    (b : option str) :
  get_data (from_user m) w !! "business_name" = Some (PStr n) →
  get_data (from_user m) w !! "services" = Some (PStr s) →
  get_data (from_user m) w !! "keywords" = Some (PStr k) →
  get_data (from_user m) w !! "contact" = Some (PStr c) →
  get_data (from_user m) w !! "bot_username"
  = Some (from_option PStr PNone b) →
  get_data (from_user m) w !! "description" = Some (PStr d) →
  get_vendor_by_telegram_id (from_user m) w = None →
  try_register m w
  = Some (send (from_user m) (RRegistered n)
            (set_vendors
               (vendors w ++
                [{| vendor_id := next_id (vendors w);
                    telegram_id := from_user m; business_name := n;
                    services := s; keywords := k; contact := c;
                    bot_username := b; description := Some d;
                    price_range := text m;
                    total_orders := 0; avg_rating := 0 |}]) w)).
Proof.
  intros Hn Hs Hk Hc Hb Hd Hnew. unfold try_register.
  rewrite Hn, Hs, Hk, Hc, Hb, Hd. cbn [mbind option_bind sql_text].
  unfold insert_vendor.
  rewrite bool_decide_eq_false_2 by (by apply get_vendor_by_telegram_id_None).
  by destruct b.
Qed.

(** A user who owns no vendor and answers the six questions after
    [/register] (with texts that are not themselves the commands [/start]
    or [/register]) gets exactly one new vendor row holding the answers:
    the keywords are those of the services joined by spaces, the bot
    name is absent for a negative answer and otherwise trimmed and given
    a leading [@], the description is cut at 200 characters; the
    conversation is idle again. *)
Theorem registration_round_trip (bot : str) (uid : Z)
    (name serv cont handle desc price : str) (w : world) :
  get_vendor_by_telegram_id uid w = None →
  plain name → plain serv → plain cont → plain handle → plain desc →
  plain price →
  let w' := feed_updates
              (registration_of bot uid name serv cont handle desc price) w in
  vendors w'
  = vendors w ++
    [{| vendor_id := next_id (vendors w); telegram_id := uid;
        business_name := name; services := serv;
        keywords := join (py " ") (extract_keywords serv); contact := cont;
        bot_username :=
          if bool_decide (lower handle ∈ no_bot_answers) then None
          else if startswith (strip handle) (py "@") then Some (strip handle)
               else Some (py "@" ++ strip handle);
        description := Some (take 200 desc); price_range := Some price;
        total_orders := 0; avg_rating := 0 |}]
  ∧ get_state uid w' = None ∧ get_data uid w' = ∅
  ∧ orders w' = orders w ∧ ratings w' = ratings w.
Proof.
  intros Hnew Hname Hserv Hcont Hbot Hdesc Hprice w'. subst w'.
  unfold registration_of, says, feed_updates. cbn [foldl].
  assert (feed_update (Message (said bot uid (py "/register"))) w
          = Ok (set_state uid VendorRegistration_business_name
                  (send uid RAskBusinessName w))) as ->.
  { cbn [feed_update]. unfold route_message.
    assert (is_command "start" (said bot uid (py "/register")) = false) as ->
      by (by destruct bot).
    assert (is_command "register" (said bot uid (py "/register")) = true)
      as -> by (by destruct bot).
    cbn [run_message]. unfold cmd_register. cbn [from_user said].
    by rewrite Hnew. }
  cbn [world_of].
  set (w1 := set_state uid VendorRegistration_business_name _).
  assert (get_state uid w1 = Some VendorRegistration_business_name) as Hs1
    by apply get_state_set_state.
  assert (get_vendor_by_telegram_id uid w1 = None) as Hnew1 by done.
  assert (vendors w1 = vendors w ∧ orders w1 = orders w
          ∧ ratings w1 = ratings w) as (Hv1 & Ho1 & Hr1) by done.
  clearbody w1.
  (* business name *)
  cbn [feed_update]. rewrite (route_step bot uid name w1 _ Hs1) by done.
  cbn [step_handler run_message process_business_name from_user text
       text_val world_of said].
  destruct (advance_spec uid VendorRegistration_services
              (RAskServices (Some name)) "business_name" (PStr name) w1)
    as (Hs2 & Hd2 & Hv2 & Ho2 & Hr2).
  set (w2 := set_state uid VendorRegistration_services _) in *.
  clearbody w2.
  (* services *)
  rewrite (route_step bot uid serv w2 _ Hs2) by done.
  cbn [step_handler run_message process_services from_user text world_of
       said].
  destruct (advance_spec uid VendorRegistration_contact RAskContact
              "keywords" (PStr (join (py " ") (extract_keywords serv)))
              (update_data uid "services" (PStr serv) w2))
    as (Hs3 & Hd3 & Hv3 & Ho3 & Hr3).
  rewrite get_data_update_data in Hd3.
  change (vendors (update_data uid "services" (PStr serv) w2))
    with (vendors w2) in Hv3.
  change (orders (update_data uid "services" (PStr serv) w2))
    with (orders w2) in Ho3.
  change (ratings (update_data uid "services" (PStr serv) w2))
    with (ratings w2) in Hr3.
  set (w3 := set_state uid VendorRegistration_contact _) in *.
  clearbody w3.
  (* contact *)
  rewrite (route_step bot uid cont w3 _ Hs3) by done.
  cbn [step_handler run_message process_contact from_user text text_val
       world_of said].
  destruct (advance_spec uid VendorRegistration_bot_username RAskBotUsername
              "contact" (PStr cont) w3) as (Hs4 & Hd4 & Hv4 & Ho4 & Hr4).
  set (w4 := set_state uid VendorRegistration_bot_username _) in *.
  clearbody w4.
  (* handle username *)
  rewrite (route_step bot uid handle w4 _ Hs4) by done.
  cbn [step_handler run_message process_bot_username from_user text
       world_of said].
  set (b := if bool_decide (lower handle ∈ no_bot_answers) then None
            else if startswith (strip handle) (py "@") then Some (strip handle)
                 else Some (py "@" ++ strip handle)).
  destruct (advance_spec uid VendorRegistration_description
              (RAskDescription b) "bot_username" (from_option PStr PNone b) w4)
    as (Hs5 & Hd5 & Hv5 & Ho5 & Hr5).
  set (w5 := set_state uid VendorRegistration_description _) in *.
  clearbody w5.
  (* description *)
  rewrite (route_step bot uid desc w5 _ Hs5) by done.
  cbn [step_handler run_message process_description from_user text
       world_of said].
  destruct (advance_spec uid VendorRegistration_price_range RAskPriceRange
              "description" (PStr (take 200 desc)) w5)
    as (Hs6 & Hd6 & Hv6 & Ho6 & Hr6).
  set (w6 := set_state uid VendorRegistration_price_range _) in *.
  clearbody w6.
  (* price range: completion *)
  rewrite (route_step bot uid price w6 _ Hs6) by done.
  cbn [step_handler run_message world_of].
  assert (get_vendor_by_telegram_id uid w6 = None) as Hnew6.
  { unfold get_vendor_by_telegram_id in *.
    by rewrite Hv6, Hv5, Hv4, Hv3, Hv2. }
  unfold process_price_range.
  rewrite (try_register_ok (said bot uid price) w6
             name serv (join (py " ") (extract_keywords serv)) cont
             (take 200 desc) b); cbn [from_user text said]; try done.
  - cbn [world_of]. split_and!.
    + cbn [vendors clear put_session send set_vendors].
      by rewrite Hv6, Hv5, Hv4, Hv3, Hv2, Hv1.
    + apply get_state_clear.
    + apply get_data_clear.
    + cbn [orders clear put_session send set_vendors].
      by rewrite Ho6, Ho5, Ho4, Ho3, Ho2, Ho1.
    + cbn [ratings clear put_session send set_vendors].
      by rewrite Hr6, Hr5, Hr4, Hr3, Hr2, Hr1.
  - rewrite Hd6, Hd5, Hd4, Hd3, Hd2.
    by repeat (rewrite lookup_insert_eq || rewrite lookup_insert_ne by done).
  - rewrite Hd6, Hd5, Hd4, Hd3.
    by repeat (rewrite lookup_insert_eq || rewrite lookup_insert_ne by done).
  - rewrite Hd6, Hd5, Hd4, Hd3.
    by repeat (rewrite lookup_insert_eq || rewrite lookup_insert_ne by done).
  - rewrite Hd6, Hd5, Hd4.
    by repeat (rewrite lookup_insert_eq || rewrite lookup_insert_ne by done).
  - rewrite Hd6, Hd5.
    by repeat (rewrite lookup_insert_eq || rewrite lookup_insert_ne by done).
  - rewrite Hd6. by rewrite lookup_insert_eq.
Qed.

Lemma registration_round_trip_witness :
  vendors (feed_updates
             (registration_of cxt_bot 7 (py "Jollof Spot")
                (py "jollof rice, fried rice") (py "08012345678") (py "skip")
                (py "Best rice in town") (py "N500-N2000")) empty_world)
  = [jollof_spot].
Proof.
  refine (proj1 (registration_round_trip cxt_bot 7 (py "Jollof Spot")
                   (py "jollof rice, fried rice") (py "08012345678")
                   (py "skip") (py "Best rice in town") (py "N500-N2000")
                   empty_world _ _ _ _ _ _ _));
    try done; split; apply (bool_decide_unpack _); by vm_compute.
Defined.

(** ** The Order flow, end to end *)

Lemma free_text_slashed (bot : str) (uid : Z) (t : str) :
  startswith t (py "/") = true → free_text (said bot uid t) = None.
Proof.
  unfold free_text. cbn [text said]. destruct t as [|c t]; [done|].
  by intros ->.
Qed.

Lemma route_later_step (bot : str) (uid : Z) (t : str) (w : world)
    (st : fsm_state) (h : handler) :
  get_state uid w = Some st → flow_of st ≠ Registration →
  step_handler st = Some h → slashed t →
  route_message (said bot uid t) w = Some h.
Proof.
  intros Hst Hflow Hh [Hslash [H1 H2]%(is_command_plain bot uid)].
  unfold route_message. rewrite H1, H2. cbn [from_user said]. rewrite Hst.
  change {| from_user := uid; text := Some t; caption := None; me := bot |}
    with (said bot uid t).
  rewrite free_text_slashed by done.
  destruct st; try done; simpl in Hh; by injection Hh as <-.
Qed.

Lemma sent_spec (uid : Z) (st : fsm_state) (r : reply) (k : string)
    (v : pyval) (w : world) :
  let w' := set_state uid st (send uid r (update_data uid k v w)) in
  outbox w' = outbox w ++ [(uid, r)] ∧ tasks w' = tasks w.
Proof. done. Qed.

(** The "Place Order" button for a vendor identifier that SQLite can
    hold, followed by two messages that reach the Order steps (their text
    starts with a slash and is not a command) stores one order, pending,
    with the vendor of the button, the sender as buyer, and the two texts
    as details and deadline; the conversation is idle again.  When the
    vendor exists, the vendor is notified, the buyer gets a confirmation
    and one follow-up is scheduled; when it does not, the order is stored
    all the same and nothing of the three happens. *)
Theorem order_round_trip (bot : str) (uid vid : Z) (c : callback)
    (d l : str) (w : world) :
  cb_user c = uid →
  startswith (cb_data c) (py "order_") = true →
  callback_id "order_" c = Some vid → sql_int vid = true →
  slashed d → slashed l →
  let w' := feed_updates [CallbackQuery c; says bot uid d; says bot uid l]
                         w in
  let oid := next_id (orders w) in
  orders w'
  = orders w ++
    [{| order_id := oid; o_vendor_id := vid; buyer_id := uid; details := d;
        deadline := l; status := pending; completed_at := false |}]
  ∧ get_state uid w' = None ∧ get_data uid w' = ∅
  ∧ vendors w' = vendors w ∧ ratings w' = ratings w
  ∧ outbox w'
    = outbox w ++
      [(uid, RAskOrderDetails); (uid, RCallbackAnswered); (uid, RAskDeadline)]
      ++ match get_vendor vid w with
         | Some v => [(telegram_id v, RNewOrder oid); (uid, ROrderPlaced oid)]
         | None => []
         end
  ∧ tasks w'
    = tasks w ++ match get_vendor vid w with
                 | Some _ => [(oid, uid)]
                 | None => []
                 end.
Proof.
  intros Huid Hpre Hid Hvid Hd Hl w' oid. subst w' oid.
  unfold says, feed_updates. cbn [foldl feed_update].
  rewrite (route_order_prefix c w Hpre). cbn [run_callback].
  unfold start_order. rewrite Hid, Huid. cbn [world_of].
  set (w1 := send uid RCallbackAnswered _).
  assert (get_state uid w1 = Some OrderPlacement_order_details) as Hs1
    by apply get_state_set_state.
  assert (get_data uid w1 = <["vendor_id" := PInt vid]> (get_data uid w))
    as Hd1.
  { subst w1. change (get_data uid (send ?u ?r ?x)) with (get_data uid x).
    rewrite get_data_set_state.
    change (get_data uid (send ?u ?r ?x)) with (get_data uid x).
    apply get_data_update_data. }
  assert (vendors w1 = vendors w ∧ orders w1 = orders w
          ∧ ratings w1 = ratings w ∧ tasks w1 = tasks w
          ∧ outbox w1 = outbox w ++ [(uid, RAskOrderDetails);
                                     (uid, RCallbackAnswered)])
    as (Hv1 & Ho1 & Hr1 & Ht1 & Hout1).
  { split_and!; try done. subst w1.
    cbn [outbox send set_state update_data put_session].
    by rewrite <- app_assoc. }
  clearbody w1.
  (* the details *)
  rewrite (route_later_step bot uid d w1 _ h_process_order_details Hs1)
    by done.
  cbn [run_message process_order_details from_user text text_val world_of
       said].
  destruct (advance_spec uid OrderPlacement_deadline RAskDeadline
              "order_details" (PStr d) w1) as (Hs2 & Hd2 & Hv2 & Ho2 & Hr2).
  destruct (sent_spec uid OrderPlacement_deadline RAskDeadline
              "order_details" (PStr d) w1) as (Hout2 & Ht2).
  set (w2 := set_state uid OrderPlacement_deadline _) in *.
  clearbody w2.
  (* the deadline: completion *)
  rewrite (route_later_step bot uid l w2 _ h_complete_order Hs2) by done.
  cbn [run_message]. unfold complete_order. cbn [from_user text said].
  rewrite Hd2, Hd1.
  rewrite (lookup_insert_ne _ "order_details" "vendor_id") by done.
  rewrite !lookup_insert_eq, Hvid. cbn [negb sql_text insert_order].
  assert (get_vendor vid (set_orders
            (orders w2 ++
             [{| order_id := next_id (orders w2); o_vendor_id := vid;
                 buyer_id := uid; details := d; deadline := l;
                 status := pending; completed_at := false |}]) w2)
          = get_vendor vid w) as ->.
  { unfold get_vendor. cbn [vendors set_orders]. by rewrite Hv2, Hv1. }
  rewrite Ho2, Ho1.
  destruct (get_vendor vid w) as [v|]; cbn [world_of]; split_and!;
    try done; try apply get_state_clear; try apply get_data_clear.
  all: cbn [vendors ratings orders outbox tasks clear put_session send
            create_task set_orders];
    rewrite ?Hv2, ?Hv1, ?Hr2, ?Hr1, ?Ht2, ?Ht1, ?Hout2, ?Hout1,
      <- ?app_assoc; try done.
  by rewrite app_nil_r.
Qed.

Lemma order_round_trip_witness :
  orders (feed_updates
            [press 8 "order_1"; says cxt_bot 8 (py "/2 plates");
             says cxt_bot 8 (py "/tomorrow")]
            registered_world)
  = orders registered_world ++
    [{| order_id := next_id (orders registered_world); o_vendor_id := 1;
        buyer_id := 8; details := py "/2 plates"; deadline := py "/tomorrow";
        status := pending; completed_at := false |}].
Proof.
  refine (proj1 (order_round_trip cxt_bot 8 1
                   {| cb_user := 8; cb_data := py "order_1" |}
                   (py "/2 plates") (py "/tomorrow") registered_world
                   _ _ _ _ _ _));
    try done; split; try done; split; apply (bool_decide_unpack _);
    by vm_compute.
Defined.

(** ** The Rating flow, end to end *)

Lemma route_rate_prefix (c : callback) (w : world) :
  get_state (cb_user c) w = Some RatingState_stars →
  startswith (cb_data c) (py "rate_") = true →
  route_callback c w = Some h_process_rating_stars.
Proof.
  intros Hst [b Hb]%startswith_spec. unfold route_callback.
  by rewrite Hst, Hb.
Qed.

Lemma get_order_update_status (oid : Z) (s : order_status) (stamp : bool)
    (w : world) (o : order_row) :
  get_order oid w = Some o →
  ∃ o', get_order oid (update_order_status oid s stamp w) = Some o'
        ∧ order_facts o' = order_facts o ∧ status o' = s.
Proof.
  unfold get_order, update_order_status. cbn [orders set_orders].
  destruct (list_find _ (orders w)) as [[i x]|] eqn:Hfind; [|done].
  intros [= <-]. change (map ?f ?l) with (f <$> l).
  rewrite list_find_fmap.
  erewrite (list_find_ext _ (λ o0, order_id o0 = oid));
    [|intros o0; simpl; by case_bool_decide].
  rewrite Hfind. simpl.
  apply list_find_Some in Hfind as (_ & Hid & _).
  rewrite bool_decide_eq_true_2 by done. by eexists.
Qed.

(** The "received" button of an order that exists and is not yet rated,
    then a stars button from 1 to 5, then a message that reaches the
    review step (its text starts with a slash and is not a command): one
    rating is stored for the order's vendor, with the stars and with the
    text as review, or without review when the text is [/skip]; the order
    is completed, the vendor's row holds the number of the ratings
    recorded for the vendor and the mean of their stars as a double, and
    the conversation is idle again. *)
Theorem rating_round_trip (bot : str) (uid oid st : Z) (c1 c2 : callback)
    (t : str) (o : order_row) (w : world) :
  cb_user c1 = uid → cb_user c2 = uid →
  startswith (cb_data c1) (py "complete_") = true →
  callback_id "complete_" c1 = Some oid → sql_int oid = true →
  startswith (cb_data c2) (py "rate_") = true →
  callback_id "rate_" c2 = Some st →
  slashed t →
  get_order oid w = Some o →
  oid ∉ map r_order_id (ratings w) →
  (1 ≤ st ≤ 5)%Z →
  let w' := feed_updates
              [CallbackQuery c1; CallbackQuery c2; says bot uid t] w in
  let r := {| rating_id := next_id (ratings w); r_order_id := oid;
              r_vendor_id := o_vendor_id o; r_buyer_id := uid; stars := st;
              review_text := if bool_decide (t = py "/skip") then None
                             else Some t |} in
  ratings w' = ratings w ++ [r]
  ∧ get_state uid w' = None ∧ get_data uid w' = ∅
  ∧ (∃ o', get_order oid w' = Some o' ∧ order_facts o' = order_facts o
           ∧ status o' = completed)
  ∧ (∀ v, v ∈ vendors w' → vendor_id v = o_vendor_id o →
          let ss := map stars (filter (λ x, r_vendor_id x = o_vendor_id o)
                                      (ratings w')) in
          total_orders v = Z.of_nat (length ss)
          ∧ avg_rating v = to_double (mean ss)).
Proof.
  intros Hu1 Hu2 Hp1 Hid1 Hoid Hp2 Hid2 Ht Ho Hnew Hst w' r. subst w'.
  unfold says, feed_updates. cbn [foldl feed_update].
  rewrite (route_complete_prefix c1 w Hp1). cbn [run_callback].
  unfold order_completed. rewrite Hid1, Hu1. cbn [world_of].
  destruct (get_order_update_status oid completed true w o Ho)
    as (o' & Ho' & Hfacts & Hstatus).
  set (w1 := send uid RCallbackAnswered _).
  assert (get_state uid w1 = Some RatingState_stars) as Hs1
    by apply get_state_set_state.
  assert (get_data uid w1 !! "order_id" = Some (PInt oid)) as Hd1.
  { subst w1. change (get_data uid (send ?u ?x ?y)) with (get_data uid y).
    rewrite get_data_set_state.
    change (get_data uid (send ?u ?x ?y)) with (get_data uid y).
    by rewrite get_data_update_data, lookup_insert_eq. }
  assert (get_order oid w1 = Some o') as Ho1 by done.
  assert (ratings w1 = ratings w) as Hr1 by done.
  clearbody w1.
  (* the stars *)
  rewrite (route_rate_prefix c2 w1) by (by rewrite ?Hu2).
  cbn [run_callback]. unfold process_rating_stars.
  rewrite Hid2, Hu2.
  assert (sql_int st = true) as -> by (unfold sql_int; lia).
  cbn [negb world_of].
  set (w2 := send uid RCallbackAnswered _).
  assert (get_state uid w2 = Some RatingState_review) as Hs2
    by apply get_state_set_state.
  assert (get_data uid w2 !! "order_id" = Some (PInt oid)
          ∧ get_data uid w2 !! "stars" = Some (PInt st)) as [Hd2 Hd2'].
  { subst w2. change (get_data uid (send ?u ?x ?y)) with (get_data uid y).
    rewrite get_data_set_state.
    change (get_data uid (send ?u ?x ?y)) with (get_data uid y).
    rewrite get_data_update_data, lookup_insert_eq.
    by rewrite lookup_insert_ne. }
  assert (get_order oid w2 = Some o') as Ho2 by done.
  assert (ratings w2 = ratings w) as Hr2 by done.
  clearbody w2.
  (* the review *)
  rewrite (route_later_step bot uid t w2 _ h_process_review Hs2) by done.
  cbn [run_message]. unfold process_review. cbn [from_user text said].
  rewrite Hd2, Hd2', Ho2.
  assert (o_vendor_id o' = o_vendor_id o) as Hvid
    by (by injection Hfacts).
  unfold insert_rating. rewrite Hr2.
  rewrite bool_decide_eq_false_2 by done.
  rewrite bool_decide_eq_true_2 by done.
  cbn [world_of]. rewrite Hvid.
  assert ((if bool_decide (Some t = Some (py "/skip")) then None else Some t)
          = review_text r) as Hrev.
  { subst r. cbn [review_text]. by repeat case_bool_decide; simplify_eq. }
  rewrite Hrev. split_and!.
  - done.
  - apply get_state_clear.
  - apply get_data_clear.
  - exists o'. by split_and!.
  - intros v Hin Hv.
    exact (update_vendor_rating_row (o_vendor_id o) _ v Hin Hv).
Qed.

Lemma rating_round_trip_witness :
  ratings (feed_updates
             [press 8 "complete_1"; press 8 "rate_4";
              says cxt_bot 8 (py "/skip")]
             ordered_world)
  = ratings ordered_world ++
    [{| rating_id := next_id (ratings ordered_world); r_order_id := 1;
        r_vendor_id := o_vendor_id first_order; r_buyer_id := 8; stars := 4;
        review_text := if bool_decide (py "/skip" = py "/skip") then None
                       else Some (py "/skip") |}].
Proof.
  refine (proj1 (rating_round_trip cxt_bot 8 1 4
                   {| cb_user := 8; cb_data := py "complete_1" |}
                   {| cb_user := 8; cb_data := py "rate_4" |}
                   (py "/skip") first_order ordered_world
                   _ _ _ _ _ _ _ _ _ _ _));
    try done; try (by vm_compute).
  apply (bool_decide_unpack _). by vm_compute.
Defined.

(** ** The follow-up *)

Lemma get_order_update_status_None (oid : Z) (s : order_status)
    (stamp : bool) (w : world) :
  get_order oid w = None →
  get_order oid (update_order_status oid s stamp w) = None.
Proof.
  unfold get_order, update_order_status. cbn [orders set_orders].
  destruct (list_find _ (orders w)) as [[i x]|] eqn:Hfind; [done|].
  intros _. change (map ?f ?l) with (f <$> l).
  rewrite list_find_fmap.
  erewrite (list_find_ext _ (λ o0, order_id o0 = oid));
    [|intros o0; simpl; by case_bool_decide].
  by rewrite Hfind.
Qed.

(** Once the buyer has answered for an order, with the "received" button
    or with the "not received" button, the follow-up of that order sends
    nothing and changes nothing. *)
Theorem followup_silent_after_answer (c : callback) (oid buyer : Z)
    (w : world) :
  (startswith (cb_data c) (py "complete_") = true
   ∧ callback_id "complete_" c = Some oid)
  ∨ (startswith (cb_data c) (py "incomplete_") = true
     ∧ callback_id "incomplete_" c = Some oid) →
  let w' := world_of (feed_update (CallbackQuery c) w) in
  schedule_order_followup (oid, buyer) w' = w'.
Proof.
  intros [[Hp Hid] | [Hp Hid]] w'; subst w'; cbn [feed_update].
  - rewrite (route_complete_prefix c w Hp). cbn [run_callback].
    unfold order_completed. rewrite Hid. cbn [world_of].
    unfold schedule_order_followup. cbn [fst snd].
    set (w1 := send _ RCallbackAnswered _).
    assert (get_order oid w1
            = get_order oid (update_order_status oid completed true w))
      as -> by done.
    destruct (get_order oid w) as [o|] eqn:Ho.
    + destruct (get_order_update_status oid completed true w o Ho)
        as (o' & -> & _ & ->). done.
    + by rewrite get_order_update_status_None.
  - rewrite (route_incomplete_prefix c w Hp). cbn [run_callback].
    unfold order_incomplete. rewrite Hid. cbn [world_of].
    unfold schedule_order_followup. cbn [fst snd].
    set (w1 := send _ RCallbackAnswered _).
    assert (get_order oid w1
            = get_order oid (update_order_status oid flagged false w))
      as -> by done.
    destruct (get_order oid w) as [o|] eqn:Ho.
    + destruct (get_order_update_status oid flagged false w o Ho)
        as (o' & -> & _ & ->). done.
    + by rewrite get_order_update_status_None.
Qed.

Lemma followup_silent_after_answer_witness :
  schedule_order_followup (1%Z, 8%Z)
    (world_of (feed_update (CallbackQuery press_incomplete) ordered_world))
  = world_of (feed_update (CallbackQuery press_incomplete) ordered_world).
Proof.
  apply (followup_silent_after_answer press_incomplete 1 8 ordered_world).
  right. by vm_compute.
Defined.

(** ** More on the classifier and the matcher *)

Lemma str_in_trans (a b c : str) :
  str_in a b = true → str_in b c = true → str_in a c = true.
Proof.
  rewrite !str_in_spec. intros (x & y & ->) (x' & y' & ->).
  exists (x' ++ x), (y ++ y'). by rewrite <- !app_assoc.
Qed.

(** Two of the five help phrases can never yield the Help intent: a
    message that contains "what is this" or "how does this work" contains
    the greeting phrase "hi" (in "this") and is classified as a
    greeting. *)
Theorem help_phrases_shadowed (text p : str) :
  p ∈ [py "what is this"; py "how does this work"] →
  str_in p (lower text) = true →
  detect_intent text = greeting
  ∧ p ∈ bot_questions.
Proof.
  intros Hp Hin.
  assert (str_in (py "hi") p = true ∧ p ∈ bot_questions) as [Hhi Hq].
  { apply list_elem_of_In in Hp. simpl in Hp.
    destruct Hp as [<- | [<- | []]]; split; try (by vm_compute);
      apply (bool_decide_unpack _); by vm_compute. }
  split; [|done]. unfold detect_intent.
  rewrite (any_in_true greetings (lower text) (py "hi")); [done | |].
  - apply (bool_decide_unpack _). by vm_compute.
  - by eapply str_in_trans.
Qed.

Lemma help_phrases_shadowed_witness :
  detect_intent (py "So, what is this?") = greeting
  ∧ py "what is this" ∈ bot_questions.
Proof.
  apply (help_phrases_shadowed (py "So, what is this?") (py "what is this")).
  - apply (bool_decide_unpack _). by vm_compute.
  - by vm_compute.
Defined.

Lemma scan_vendors_app (ks : list str) (vs1 vs2 : list vendor_row) :
  scan_vendors ks (vs1 ++ vs2) = scan_vendors ks vs1 ++ scan_vendors ks vs2.
Proof.
  induction vs1 as [|v vs1 IH]; [done|]. simpl.
  case_bool_decide; by rewrite IH.
Qed.

(** A vendor's score does not depend on the other vendors: searching two
    tables put together finds the matches of the one and the matches of
    the other, each with the same score. *)
Theorem search_vendors_app (query : str) (vs1 vs2 : list vendor_row) :
  search_vendors query (vs1 ++ vs2)
  ≡ₚ search_vendors query vs1 ++ search_vendors query vs2.
Proof.
  unfold search_vendors. destruct (extract_keywords query); [done|].
  by rewrite !sort_desc_perm, scan_vendors_app.
Qed.

(** ** Recomputing the aggregate *)

(** Recomputing a vendor's aggregate leaves every other vendor's row as
    it is, and recomputing twice is the same as recomputing once. *)
Theorem update_vendor_rating_local (vid : Z) (w : world) :
  (∀ i v, vendors w !! i = Some v → vendor_id v ≠ vid →
          vendors (update_vendor_rating vid w) !! i = Some v)
  ∧ update_vendor_rating vid (update_vendor_rating vid w)
    = update_vendor_rating vid w.
Proof.
  split.
  - intros i v Hi Hne. rewrite update_vendor_rating_keys.
    change (map ?f ?l) with (f <$> l). rewrite list_lookup_fmap, Hi. simpl.
    by rewrite bool_decide_eq_false_2.
  - unfold update_vendor_rating at 1 3.
    cbn [ratings update_vendor_rating set_vendors].
    rewrite update_vendor_rating_keys. unfold set_vendors.
    cbn [storage vendors orders ratings outbox tasks calls].
    f_equal. rewrite map_map. apply map_ext. intros v.
    destruct (decide (vendor_id v = vid)) as [Hv|Hv].
    + rewrite (bool_decide_eq_true_2 (vendor_id v = vid)) by done.
      cbn [vendor_id].
      rewrite (bool_decide_eq_true_2 (vendor_id v = vid)) by done.
      reflexivity.
    + rewrite !(bool_decide_eq_false_2 (vendor_id v = vid)) by done.
      reflexivity.
Qed.

(** ** When completion fails *)

(** With a vendor and order details collected, [complete_order] stores
    the order exactly when SQLite can hold the identifier of the vendor
    and neither the details nor the deadline is missing (a message
    without text gives [None], refused by NOT NULL).  Otherwise it raises
    and the world is as before: [OverflowError] for the identifier,
    [IntegrityError] for a missing text. *)
Theorem complete_order_outcome (m : message) (w : world) (vid : Z)
    (d : option str) :
  get_data (from_user m) w !! "vendor_id" = Some (PInt vid) →
  get_data (from_user m) w !! "order_details"
  = Some (from_option PStr PNone d) →
  ((∃ w', complete_order m w = Ok w')
   ↔ sql_int vid = true ∧ is_Some d ∧ is_Some (text m))
  ∧ (sql_int vid = false → complete_order m w = Raise OverflowError w)
  ∧ (sql_int vid = true → d = None ∨ text m = None →
     complete_order m w = Raise IntegrityError w).
Proof.
  intros Hv Hx. unfold complete_order. rewrite Hv, Hx.
  unfold insert_order.
  destruct (sql_int vid), d as [s|], (text m) as [l|];
    cbn [negb from_option sql_text]; split_and!;
    match goal with
    | |- (∃ w', _ = Ok w') ↔ _ =>
        split;
        [ intros [w' Hw'];
          first [discriminate Hw' | split_and!; by eauto]
        | intros (H1 & [? H2] & [? H3]);
          first [discriminate H1 | discriminate H2 | discriminate H3
                | eexists; reflexivity] ]
    | |- _ = false → _ =>
        intros H; first [discriminate H | reflexivity]
    | |- _ = true → _ ∨ _ → _ =>
        intros H [H' | H'];
        first [discriminate H | discriminate H' | reflexivity]
    end.
Qed.

Lemma complete_order_outcome_witness :
  let m := {| from_user := 8; text := None; caption := None;
              me := cxt_bot |} in
  let w := feed_updates [press 8 "order_1"; says cxt_bot 8 (py "/2 plates")]
                        registered_world in
  complete_order m w = Raise IntegrityError w.
Proof.
  intros m w.
  apply (complete_order_outcome m w 1 (Some (py "/2 plates")));
    [by vm_compute | by vm_compute | by vm_compute | by right].
Defined.

(** With an order and stars collected, [process_review] raises
    [TypeError] when the order does not exist; when it exists, the rating
    is stored exactly when the order has no rating yet and the stars lie
    between 1 and 5, and otherwise [IntegrityError] is raised and the
    world is as before. *)
Theorem process_review_outcome (m : message) (w : world) (oid st : Z) :
  get_data (from_user m) w !! "order_id" = Some (PInt oid) →
  get_data (from_user m) w !! "stars" = Some (PInt st) →
  (get_order oid w = None → process_review m w = Raise TypeError w)
  ∧ (is_Some (get_order oid w) →
     (process_review m w = Raise IntegrityError w
      ↔ oid ∈ map r_order_id (ratings w) ∨ ¬ (1 ≤ st ≤ 5)%Z)
     ∧ ((∃ w', process_review m w = Ok w')
        ↔ (oid ∉ map r_order_id (ratings w)) ∧ (1 ≤ st ≤ 5)%Z)).
Proof.
  intros Ho Hs. unfold process_review. rewrite Ho, Hs. split.
  - by intros ->.
  - intros [o ->]. unfold insert_rating.
    case_bool_decide as Hrated; [|case_bool_decide as Hstars].
    + split; split; try done; try (intros _; by left).
      * by intros [w' ?].
      * by intros [? _].
    + split; split; try done; try (intros _; by eexists).
      * by intros [? | ?].
    + split; split; try done; try (intros _; by right).
      * by intros [w' ?].
      * by intros [_ ?].
Qed.

Lemma process_review_outcome_witness :
  let m := {| from_user := 8; text := Some (py "/skip"); caption := None;
              me := cxt_bot |} in
  let w := feed_updates [press 8 "complete_1"; press 8 "rate_4"]
                        ordered_world in
  (get_order 1 w = None → process_review m w = Raise TypeError w)
  ∧ (is_Some (get_order 1 w) →
     (process_review m w = Raise IntegrityError w
      ↔ 1%Z ∈ map r_order_id (ratings w) ∨ ¬ (1 ≤ 4 ≤ 5)%Z)
     ∧ ((∃ w', process_review m w = Ok w')
        ↔ (1%Z ∉ map r_order_id (ratings w)) ∧ (1 ≤ 4 ≤ 5)%Z)).
Proof.
  intros m w. apply (process_review_outcome m w 1 4); by vm_compute.
Defined.

(** ** Registration refused *)

(** A user who already owns a vendor and asks to register, by the
    command or, when idle, by free text classified as a registration
    request, is told so with the name of the business: no flow is
    entered, no session and no table changes. *)
Theorem register_refused (m : message) (w : world) (v : vendor_row) :
  get_vendor_by_telegram_id (from_user m) w = Some v →
  is_command "start" m = false →
  is_command "register" m = true
  ∨ (is_command "register" m = false
     ∧ get_state (from_user m) w = None
     ∧ ∃ t, free_text m = Some t ∧ detect_intent t = register) →
  ∃ w',
    feed_update (Message m) w = Ok w'
    ∧ storage w' = storage w ∧ vendors w' = vendors w
    ∧ orders w' = orders w ∧ ratings w' = ratings w
    ∧ outbox w'
      = outbox w ++ [(from_user m, RAlreadyRegistered (business_name v))].
Proof.
  intros Hv Hc1 [Hc2 | (Hc2 & Hst & t & Hfree & Hint)]; cbn [feed_update].
  - unfold route_message. rewrite Hc1, Hc2. cbn [run_message].
    unfold cmd_register. rewrite Hv. by eexists.
  - rewrite (route_idle_free_text m t w Hst Hfree Hc1 Hc2).
    cbn [run_message]. rewrite (free_text_text m t Hfree).
    change (default [] (Some t)) with t.
    unfold handle_conversation. rewrite Hst, Hint.
    unfold cmd_register.
    change (get_vendor_by_telegram_id (from_user m)
              (record_call (CallDetectIntent t) w))
      with (get_vendor_by_telegram_id (from_user m) w).
    rewrite Hv. by eexists.
Qed.

Lemma register_refused_witness :
  ∃ w',
    feed_update (text_msg 7 "I want to register my shop") registered_world
    = Ok w'
    ∧ storage w' = storage registered_world
    ∧ vendors w' = vendors registered_world
    ∧ orders w' = orders registered_world
    ∧ ratings w' = ratings registered_world
    ∧ outbox w'
      = outbox registered_world ++
        [(7%Z, RAlreadyRegistered (business_name jollof_spot))].
Proof.
  apply (register_refused
           {| from_user := 7; text := Some (py "I want to register my shop");
              caption := None; me := cxt_bot |}
           registered_world jollof_spot).
  - by vm_compute.
  - by vm_compute.
  - right. split; [by vm_compute|]. split; [by vm_compute|].
    exists (py "I want to register my shop"). by vm_compute.
Defined.

(** ** Numbers in callback data *)

Lemma digit_char (c : ascii) :
  is_digit c = true →
  is_space c = false ∧ c ≠ "-"%char ∧ c ≠ "+"%char
  ∧ is_lower c = false ∧ (0 ≤ digit_val c ≤ 9)%Z.
Proof. destruct c as [[] [] [] [] [] [] [] []]; by vm_compute. Qed.

Lemma string_of_uint_digits (d : Decimal.uint) :
  forallb is_digit (py (NilEmpty.string_of_uint d)) = true.
Proof. induction d; simpl; by rewrite ?IHd. Qed.

Lemma string_of_uint_val (d : Decimal.uint) (acc : Z) :
  foldl (λ acc c, 10 * acc + digit_val c)%Z acc
        (py (NilEmpty.string_of_uint d))
  = uint_val d acc.
Proof.
  revert acc. induction d; intros acc; simpl; first done; rewrite IHd;
    f_equal;
    match goal with
    | |- context [digit_val ?c] =>
        let v := eval vm_compute in (digit_val c) in
        change (digit_val c) with v
    end; lia.
Qed.

Lemma of_uint_acc_val (d : Decimal.uint) (acc : positive) :
  Z.pos (Pos.of_uint_acc d acc) = uint_val d (Z.pos acc).
Proof.
  revert acc. induction d; intros acc; simpl; rewrite ?IHd; try done;
    f_equal; lia.
Qed.

Lemma of_uint_val (d : Decimal.uint) : Z.of_N (Pos.of_uint d) = uint_val d 0.
Proof.
  induction d; simpl; try done; rewrite ?of_uint_acc_val; done.
Qed.

Lemma show_Z_digits (z : Z) :
  (0 ≤ z)%Z →
  show_Z z ≠ [] ∧ forallb is_digit (show_Z z) = true
  ∧ digits_val (show_Z z) = z.
Proof.
  intros Hz. unfold show_Z, digits_val.
  destruct z as [|p|p]; [by vm_compute| |lia].
  cbn [Z.to_int NilEmpty.string_of_int].
  split_and!.
  - pose proof (DecimalPos.Unsigned.to_uint_nonnil p) as Hn.
    destruct (Pos.to_uint p); done.
  - apply string_of_uint_digits.
  - rewrite string_of_uint_val, <- of_uint_val.
    by rewrite DecimalPos.Unsigned.of_to.
Qed.

Lemma digit_int_char (c : ascii) :
  is_digit c = true → is_int_space c = false.
Proof. destruct c as [[] [] [] [] [] [] [] []]; by vm_compute. Qed.

Lemma int_lstrip_digits (ds : str) :
  forallb is_digit ds = true → int_lstrip ds = ds.
Proof.
  destruct ds as [|c ds]; first done. simpl.
  intros [Hc _]%andb_true_iff. by rewrite (digit_int_char c Hc).
Qed.

Lemma forallb_reverse (f : ascii → bool) (s : str) :
  forallb f (reverse s) = forallb f s.
Proof.
  induction s as [|c s IH]; first done.
  rewrite reverse_cons, forallb_app, IH. simpl.
  by rewrite andb_true_r, andb_comm.
Qed.

Lemma int_strip_digits (ds : str) :
  forallb is_digit ds = true → int_strip ds = ds.
Proof.
  intros H. unfold int_strip. rewrite (int_lstrip_digits ds H).
  rewrite int_lstrip_digits by by rewrite forallb_reverse.
  apply reverse_involutive.
Qed.

Lemma int_digits_digits (ds : str) (acc : Z) :
  forallb is_digit ds = true →
  int_digits true acc ds
  = Some (foldl (λ acc c, 10 * acc + digit_val c)%Z acc ds).
Proof.
  revert acc. induction ds as [|c ds IH]; intros acc; first done.
  simpl. intros [-> H]%andb_true_iff. by apply IH.
Qed.

Lemma parse_int_digits (ds : str) :
  ds ≠ [] → forallb is_digit ds = true → parse_int ds = Some (digits_val ds).
Proof.
  intros Hne H. unfold parse_int. rewrite (int_strip_digits ds H).
  destruct ds as [|c ds]; first done.
  pose proof H as [Hc Hds]%andb_true_iff.
  destruct (digit_char c Hc) as (_ & Hm & Hp & _).
  assert (int_digits false 0 (c :: ds) = Some (digits_val (c :: ds))) as Hd.
  { cbn [int_digits]. rewrite Hc. by apply int_digits_digits. }
  destruct c as [[] [] [] [] [] [] [] []]; try done.
Qed.

Lemma parse_int_show_Z (z : Z) : (0 ≤ z)%Z → parse_int (show_Z z) = Some z.
Proof.
  intros (Hne & Hd & Hv)%show_Z_digits.
  by rewrite parse_int_digits, Hv.
Qed.

Lemma startswith_app (p s : str) : startswith (p ++ s) p = true.
Proof.
  induction p as [|c p IH]; first done. simpl.
  by rewrite bool_decide_eq_true_2.
Qed.

Lemma remove_from_skip (old a s : str) :
  remove_from old (length a) (a ++ s) = remove_from old 0 s.
Proof. induction a as [|c a IH]; [by destruct s|done]. Qed.

Lemma remove_all_digits (c : ascii) (old ds : str) :
  is_digit c = false → forallb is_digit ds = true →
  remove_all (c :: old) ds = ds.
Proof.
  intros Hc. unfold remove_all.
  induction ds as [|d ds IH]; first done.
  intros [Hd H]%andb_true_iff. cbn [remove_from startswith].
  rewrite bool_decide_eq_false_2 by (intros ->; congruence).
  cbn. by rewrite IH.
Qed.

Lemma callback_id_show_Z (p : string) (uid z : Z) :
  (0 ≤ z)%Z →
  match py p with c :: _ => is_digit c = false | [] => False end →
  callback_id p (pressed uid (py p ++ show_Z z)) = Some z.
Proof.
  intros Hz Hp. unfold callback_id. cbn [cb_data pressed].
  destruct (py p) as [|c old] eqn:E; first done.
  destruct (show_Z_digits z Hz) as (_ & Hd & _).
  replace (remove_all (c :: old) ((c :: old) ++ show_Z z))
    with (show_Z z); first by apply parse_int_show_Z.
  symmetry. unfold remove_all. cbn [remove_from app].
  change (c :: old ++ show_Z z) with ((c :: old) ++ show_Z z).
  rewrite startswith_app.
  replace (length (c :: old) - 1) with (length old) by (simpl; lia).
  rewrite remove_from_skip. by apply remove_all_digits.
Qed.

(** ** Buttons *)

Lemma route_prefixed (uid : Z) (w : world) (s : str) :
  route_callback (pressed uid (py "vendor_" ++ s)) w
  = Some h_show_vendor_details
  ∧ route_callback (pressed uid (py "botorder_" ++ s)) w
    = Some h_redirect_to_vendor_bot
  ∧ route_callback (pressed uid (py "order_" ++ s)) w = Some h_start_order
  ∧ route_callback (pressed uid (py "complete_" ++ s)) w
    = Some h_order_completed
  ∧ route_callback (pressed uid (py "incomplete_" ++ s)) w
    = Some h_order_incomplete
  ∧ route_callback (pressed uid (py "contact_" ++ s)) w = Some h_show_contact
  ∧ route_callback (pressed uid (py "rate_" ++ s)) w
    = (if bool_decide (get_state uid w = Some RatingState_stars)
       then Some h_process_rating_stars else None)
  ∧ route_callback (pressed uid (py "search_again")) w = Some h_search_again.
Proof.
  unfold route_callback. cbn [cb_data cb_user pressed].
  destruct (bool_decide (get_state uid w = Some RatingState_stars));
    split_and!; reflexivity.
Qed.

Lemma dispatch_button (p : string) (h : handler) (uid z : Z) (w : world) :
  (0 ≤ z)%Z →
  (p, h) ∈ [("vendor_", h_show_vendor_details);
            ("botorder_", h_redirect_to_vendor_bot);
            ("order_", h_start_order);
            ("complete_", h_order_completed);
            ("incomplete_", h_order_incomplete);
            ("contact_", h_show_contact)] →
  dispatch (pressed uid (py p ++ show_Z z)) w = Some (h, Some z).
Proof.
  intros Hz Hin. unfold dispatch.
  destruct (route_prefixed uid w (show_Z z))
    as (H1 & H2 & H3 & H4 & H5 & H6 & _).
  repeat (apply elem_of_cons in Hin as [[= -> ->]|Hin];
          [first [rewrite H1|rewrite H2|rewrite H3|rewrite H4|rewrite H5
                 |rewrite H6];
           cbn [mbind option_bind handler_arg];
           by rewrite callback_id_show_Z|]).
  by apply elem_of_nil in Hin.
Qed.

Lemma dispatch_rate (uid z : Z) (w : world) :
  (0 ≤ z)%Z →
  dispatch (pressed uid (py "rate_" ++ show_Z z)) w
  = if bool_decide (get_state uid w = Some RatingState_stars)
    then Some (h_process_rating_stars, Some z) else None.
Proof.
  intros Hz. unfold dispatch.
  destruct (route_prefixed uid w (show_Z z))
    as (_ & _ & _ & _ & _ & _ & -> & _).
  case_bool_decide; last done.
  cbn [mbind option_bind handler_arg]. by rewrite callback_id_show_Z.
Qed.

Lemma dispatch_search_again (uid : Z) (w : world) :
  dispatch (pressed uid (py "search_again")) w = Some (h_search_again, None).
Proof.
  unfold dispatch.
  by destruct (route_prefixed uid w []) as (_ & _ & _ & _ & _ & _ & _ & ->).
Qed.

(** Every button the bot renders lands on the handler it was made for,
    and that handler reads back the id that was written into the button:
    the buttons of a vendor card, of a result list and of the follow-up
    prompt always, the star buttons only while the user is at the
    [RatingState.stars] step (otherwise no handler takes them). *)
Theorem buttons_decode (uid vid oid : Z) (ms : list vendor_match)
    (w : world) :
  (0 ≤ vid)%Z → (0 ≤ oid)%Z → Forall (λ m, 0 ≤ m_vendor_id m)%Z ms →
  let land d := dispatch (pressed uid d) w in
  (∀ has_bot,
     map land (vendor_action_keyboard vid has_bot)
     = [Some (if has_bot then h_redirect_to_vendor_bot else h_start_order,
              Some vid);
        Some (h_show_contact, Some vid);
        Some (h_search_again, None)])
  ∧ map land (vendor_list_keyboard ms)
    = map (λ m, Some (h_show_vendor_details, Some (m_vendor_id m)))
          (take 10 ms)
      ++ [Some (h_search_again, None)]
  ∧ map land (followup_keyboard oid)
    = [Some (h_order_completed, Some oid);
       Some (h_order_incomplete, Some oid)]
  ∧ map land rating_keyboard
    = if bool_decide (get_state uid w = Some RatingState_stars)
      then map (λ i, Some (h_process_rating_stars, Some i)) [1; 2; 3; 4; 5]%Z
      else replicate 5 None.
Proof.
  intros Hvid Hoid Hms land. subst land. split_and!.
  - intros has_bot. unfold vendor_action_keyboard. cbn [map].
    rewrite dispatch_search_again.
    rewrite (dispatch_button "contact_" h_show_contact) by set_solver.
    destruct has_bot.
    + by rewrite (dispatch_button "botorder_" h_redirect_to_vendor_bot)
        by set_solver.
    + by rewrite (dispatch_button "order_" h_start_order) by set_solver.
  - unfold vendor_list_keyboard. rewrite map_app, map_map. cbn [map].
    rewrite dispatch_search_again. f_equal.
    apply map_ext_in. intros m Hm%list_elem_of_In.
    apply (dispatch_button "vendor_" h_show_vendor_details); [|set_solver].
    apply elem_of_take in Hm as (i & Hi & _).
    exact (Forall_lookup_1 _ _ _ _ Hms Hi).
  - unfold followup_keyboard. cbn [map].
    rewrite (dispatch_button "complete_" h_order_completed) by set_solver.
    by rewrite (dispatch_button "incomplete_" h_order_incomplete)
      by set_solver.
  - unfold rating_keyboard. cbn [map].
    rewrite !dispatch_rate by done. by case_bool_decide.
Qed.

Lemma buttons_decode_witness :
  map (λ d, dispatch (pressed 8 d) awaiting_stars_world) rating_keyboard
  = map (λ i, Some (h_process_rating_stars, Some i)) [1; 2; 3; 4; 5]%Z.
Proof.
  refine (proj2 (proj2 (proj2
    (buttons_decode 8 1 1 [] awaiting_stars_world _ _ _)))).
  - done.
  - done.
  - constructor.
Defined.

Lemma route_callback_range (c : callback) (w : world) (h : handler) :
  route_callback c w = Some h →
  h ∈ [h_show_vendor_details; h_search_again; h_redirect_to_vendor_bot;
       h_start_order; h_order_completed; h_process_rating_stars;
       h_order_incomplete; h_show_contact].
Proof.
  unfold route_callback. intros H.
  repeat case_match; simplify_eq; set_solver.
Qed.

(** A button press whose callback data is ASCII text from which the
    handler selected for it cannot read an integer fails with
    [ValueError] before anything is sent or written: the press gets no
    answer at all. *)
Theorem callback_failure (c : callback) (w : world) (h : handler) :
  Forall (λ x, nat_of_ascii x < 128) (cb_data c) →
  dispatch c w = Some (h, None) → h ≠ h_search_again →
  feed_update (CallbackQuery c) w = Raise ValueError w.
Proof.
  intros _. unfold dispatch. cbn [feed_update].
  destruct (route_callback c w) as [h'|] eqn:Hr; cbn [mbind option_bind];
    last done.
  intros [= -> Harg] Hh.
  apply route_callback_range in Hr.
  repeat (apply elem_of_cons in Hr as [->|Hr]);
    [..|by apply elem_of_nil in Hr]; try done;
    cbn [run_callback handler_arg] in *;
    unfold show_vendor_details, redirect_to_vendor_bot,
      start_order, order_completed, process_rating_stars, order_incomplete,
      show_contact;
    by rewrite Harg.
Qed.

Lemma callback_failure_witness :
  feed_update (press 8 "vendor_abc") registered_world
  = Raise ValueError registered_world.
Proof.
  apply (callback_failure {| cb_user := 8; cb_data := py "vendor_abc" |}
           registered_world h_show_vendor_details).
  - apply (bool_decide_unpack _). by vm_compute.
  - by vm_compute.
  - done.
Defined.

(** ** The vendor's reports *)

(** [/orderhistory] and [/myrating] answer with exactly one message and
    leave everything else as it is.  A user without a vendor row is told
    so.  A vendor's history lists at most 15 orders, each of them an order
    placed with that vendor; it is empty-handed ([RNoOrders]) only when no
    order was placed with the vendor.  The rating report is shown exactly
    when some rating was recorded for the vendor. *)
Theorem vendor_reports_own (m : message) (w : world) :
  let uid := from_user m in
  (∃ r, cmd_order_history m w = Ok (send uid r w)
     ∧ match r with
       | RNotVendor => get_vendor_by_telegram_id uid w = None
       | RNoOrders =>
           ∃ v, get_vendor_by_telegram_id uid w = Some v
             ∧ Forall (λ o, o_vendor_id o ≠ vendor_id v) (orders w)
       | ROrderHistory oids =>
           ∃ v, get_vendor_by_telegram_id uid w = Some v
             ∧ oids ≠ [] ∧ length oids ≤ 15
             ∧ Forall (λ oid, ∃ o, o ∈ orders w ∧ order_id o = oid
                                ∧ o_vendor_id o = vendor_id v) oids
       | _ => False
       end)
  ∧ (∃ r, cmd_my_rating m w = Ok (send uid r w)
       ∧ match r with
         | RNotVendor => get_vendor_by_telegram_id uid w = None
         | RNoRatings =>
             ∃ v, get_vendor_by_telegram_id uid w = Some v
               ∧ Forall (λ r, r_vendor_id r ≠ vendor_id v) (ratings w)
         | RMyRating =>
             ∃ v, get_vendor_by_telegram_id uid w = Some v
               ∧ Exists (λ r, r_vendor_id r = vendor_id v) (ratings w)
         | _ => False
         end).
Proof.
  intros uid. unfold cmd_order_history, cmd_my_rating, vendor_stars.
  fold uid.
  destruct (get_vendor_by_telegram_id uid w) as [v|];
    last by split; eexists.
  split.
  - destruct (filter (λ o, o_vendor_id o = vendor_id v) (orders w))
      as [|o os] eqn:Hf.
    + eexists. split; first done. exists v. split; first done.
      apply list.Forall_forall. intros o Ho Hv.
      assert (o ∈ filter (λ o, o_vendor_id o = vendor_id v) (orders w)) as Hin
        by by apply list_elem_of_filter.
      rewrite Hf in Hin. by apply elem_of_nil in Hin.
    + eexists. split; first done. exists v. split_and!; first done.
      * intros Hnil%(f_equal length). revert Hnil.
        rewrite length_map, length_take, length_reverse. simpl. lia.
      * rewrite length_map, length_take. lia.
      * apply list.Forall_forall. intros oid (o' & -> & Ho')%list_elem_of_fmap.
        apply elem_of_take in Ho' as (i & Hi%list_elem_of_lookup_2 & _).
        rewrite elem_of_reverse, <- Hf in Hi.
        apply list_elem_of_filter in Hi as [Hv Hi]. by exists o'.
  - destruct (filter (λ r, r_vendor_id r = vendor_id v) (ratings w))
      as [|r rs] eqn:Hf; cbn [map].
    + eexists. split; first done. exists v. split; first done.
      apply list.Forall_forall. intros r Hr Hv.
      assert (r ∈ filter (λ r, r_vendor_id r = vendor_id v) (ratings w))
        as Hin by by apply list_elem_of_filter.
      rewrite Hf in Hin. by apply elem_of_nil in Hin.
    + eexists. split; first done. exists v. split; first done.
      assert (r ∈ filter (λ r, r_vendor_id r = vendor_id v) (ratings w))
        as [Hv Hin]%list_elem_of_filter by (rewrite Hf; left).
      apply list.Exists_exists. by exists r.
Qed.

(** ** Browsing *)

(** Looking around changes nothing but the outbox: [/start],
    [/orderhistory], [/myrating] and the buttons that show a vendor card, a
    contact or a link to the vendor's bot, and [search_again], send their
    answers to the user who acted and leave the tables, the scheduled
    follow-ups and every session as they are.  In particular none of them
    leaves a flow: the step of the user is kept. *)
Theorem browsing_read_only (u : update) (w : world) :
  match u with
  | Message m =>
      route_message m w
      ∈ [Some h_cmd_start; Some h_cmd_order_history; Some h_cmd_my_rating]
  | CallbackQuery c =>
      route_callback c w
      ∈ [Some h_show_vendor_details; Some h_search_again;
         Some h_redirect_to_vendor_bot; Some h_show_contact]
  end →
  let w' := world_of (feed_update u w) in
  storage w' = storage w ∧ vendors w' = vendors w ∧ orders w' = orders w
  ∧ ratings w' = ratings w ∧ tasks w' = tasks w ∧ calls w' = calls w
  ∧ ∃ sent, outbox w' = outbox w ++ sent
          ∧ Forall (λ p, p.1 = user_of u) sent.
Proof.
  intros Hr w'. subst w'. destruct u as [m|c]; cbn [feed_update user_of].
  - repeat (apply elem_of_cons in Hr as [Hr|Hr]);
      [..|by apply elem_of_nil in Hr]; rewrite Hr;
      cbn [run_message];
      unfold cmd_start, cmd_order_history, cmd_my_rating;
      repeat case_match; cbn [world_of]; split_and!; try done;
      eexists [_]; split; try done; by repeat constructor.
  - repeat (apply elem_of_cons in Hr as [Hr|Hr]);
      [..|by apply elem_of_nil in Hr]; rewrite Hr;
      cbn [run_callback];
      unfold show_vendor_details, search_again, redirect_to_vendor_bot,
        show_contact;
      repeat case_match; cbn [world_of]; split_and!; try done;
      first [ exists []; split; [by rewrite app_nil_r|constructor]
            | eexists [_]; split; [done|by repeat constructor]
            | eexists [_; _]; split;
              [cbn [outbox send]; by rewrite <- app_assoc
              |by repeat constructor] ].
Qed.

Lemma browsing_read_only_witness :
  get_state 8 (feed_updates [press 8 "order_1"; press 8 "search_again"]
                 registered_world)
  = Some OrderPlacement_order_details.
Proof.
  pose proof (browsing_read_only (press 8 "search_again")
    (feed_updates [press 8 "order_1"] registered_world)) as H.
  destruct H as (Hs & _).
  - unfold press. rewrite !elem_of_cons. right. left. by vm_compute.
  - unfold feed_updates at 1. cbn [foldl].
    unfold get_state, get_session.
    change (feed_updates [press 8 "order_1"] registered_world) with
      (world_of (feed_update (press 8 "order_1") registered_world)) in Hs.
    rewrite Hs. by vm_compute.
Defined.
